(** * httpx: a fluent builder for [http.Request]

    A shallow embedding of [request.go] (package [httpx]) and the
    properties of its request builder: the sticky error, the body and
    header setters, query encoding, multipart encoding, request
    finalisation and the retry loop of [Do].

    Conventions of the embedding.
    - A [*RequestBuilder] is exclusively owned by its caller; a method
      [func (r *RequestBuilder) M(...) *RequestBuilder] that mutates [*r]
      and returns [r] becomes a function [RequestBuilder -> outcome
      RequestBuilder].  [Panicked] is a Go run-time panic; every panic of
      this package is raised by the dereference of a [nil] pointer or by
      a [nil] context, before the builder has been written to.
    - [r.req] is a pointer that [New] leaves [nil] when [http.NewRequest]
      fails: it is an [option Request].
    - Go maps ([http.Header], [url.Values], [map[string]string]) are
      [gmap]s; a [nil] map and an empty map read alike and are both [∅].
    - Go strings and byte slices are sequences of bytes: [string] and
      [list byte].
    - [MultipartForm] and [BuildWithContext] take the form, its file
      headers and the context as non-nil values; [MultipartForm_nilable]
      and [BuildWithContext_nilable] are the same methods on every
      argument, the [nil] ones included.
    - Functions of the Go standard library the package calls and whose
      result is not determined by this package (URL parsing, JSON
      serialisation, the multipart writer, the HTTP transport, the order
      in which [range] visits a map) are section variables: every theorem
      holds for whatever they do. *)

From Stdlib Require Import ZArith Strings.Byte Ascii String List Lia Permutation.
From stdpp Require Import base option list strings gmap.

Local Open Scope string_scope.
Local Open Scope Z_scope.

(** ** Errors, panics and outcomes *)

(** A Go [error] value, identified by its message. *)
Inductive error : Type :=
| errorString (msg : string).

Inductive panic : Type :=
| nil_pointer_dereference
| nil_context.

Inductive outcome (A : Type) : Type :=
| Returned (a : A)
| Panicked (p : panic).
Arguments Returned {A} a.
Arguments Panicked {A} p.

Definition bind {A B : Type} (o : outcome A) (k : A -> outcome B) : outcome B :=
  match o with
  | Returned a => k a
  | Panicked p => Panicked p
  end.

Notation "x <- c1 ;;; c2" := (bind c1 (fun x => c2))
  (at level 100, c1 at next level, right associativity).

(** Results of fallible library calls: Go's [(value, error)] pairs of which
    exactly one side is set. *)
Inductive result (A : Type) : Type :=
| ok (a : A)
| failed (e : error).
Arguments ok {A} a.
Arguments failed {A} e.

(** ** Bytes and characters *)

Definition code (c : ascii) : N := N_of_ascii c.

Definition is_lower (c : ascii) : bool := ((97 <=? code c) && (code c <=? 122))%N.
Definition is_upper (c : ascii) : bool := ((65 <=? code c) && (code c <=? 90))%N.
Definition is_digit (c : ascii) : bool := ((48 <=? code c) && (code c <=? 57))%N.
Definition is_alnum (c : ascii) : bool := is_lower c || is_upper c || is_digit c.

Definition to_upper (c : ascii) : ascii := ascii_of_N (code c - 32).
Definition to_lower (c : ascii) : ascii := ascii_of_N (code c + 32).

Fixpoint string_forallb (p : ascii -> bool) (s : string) : bool :=
  match s with
  | EmptyString => true
  | String c s' => p c && string_forallb p s'
  end.

Fixpoint string_in (c : ascii) (s : string) : bool :=
  match s with
  | EmptyString => false
  | String d s' => Ascii.eqb c d || string_in c s'
  end.

(** ** net/textproto: canonical header keys *)

(** [validHeaderFieldByte]: the token characters of RFC 7230. *)
Definition validHeaderFieldByte (c : ascii) : bool :=
  is_alnum c || string_in c "!#$%&'*+-.^_`|~".

(** The casing loop of [canonicalMIMEHeaderKey]: upper case at the start
    and after each dash, lower case elsewhere. *)
Fixpoint canonical_case (upper : bool) (s : string) : string :=
  match s with
  | EmptyString => EmptyString
  | String c s' =>
      let c' := if upper && is_lower c then to_upper c
                else if negb upper && is_upper c then to_lower c
                else c in
      String c' (canonical_case (Ascii.eqb c' "-") s')
  end.

(** [textproto.CanonicalMIMEHeaderKey]: a key holding a byte that is not a
    token character (a space included) is returned unchanged. *)
Definition CanonicalMIMEHeaderKey (s : string) : string :=
  if string_forallb validHeaderFieldByte s then canonical_case true s else s.

(** ** net/http: headers *)

Abbreviation Header := (gmap string (list string)).

(** [Header.Set]: [h[CanonicalMIMEHeaderKey(key)] = []string{value}]. *)
Definition Header_Set (key value : string) (h : Header) : Header :=
  <[CanonicalMIMEHeaderKey key := [value]]> h.

(** [Header.Get]: the first value stored under the canonical key, or the
    empty string. *)
Definition Header_Get (key : string) (h : Header) : string :=
  match h !! CanonicalMIMEHeaderKey key with
  | Some (v :: _) => v
  | _ => ""
  end.

(** ** net/url: query escaping and [Values] *)

Abbreviation Values := (gmap string (list string)).

Definition upperhex (n : N) : ascii :=
  match String.get (N.to_nat n) "0123456789ABCDEF" with
  | Some c => c
  | None => "0"%char
  end.

(** [shouldEscape(c, encodeQueryComponent)]: everything but the
    unreserved characters. *)
Definition shouldEscape (c : ascii) : bool :=
  negb (is_alnum c || string_in c "-_.~").

Fixpoint QueryEscape (s : string) : string :=
  match s with
  | EmptyString => EmptyString
  | String c s' =>
      if Ascii.eqb c " " then String "+" (QueryEscape s')
      else if shouldEscape c then
        String "%" (String (upperhex (code c / 16)) (String (upperhex (code c mod 16)) (QueryEscape s')))
      else String c (QueryEscape s')
  end.

(** [Values.Add]: [v[key] = append(v[key], value)]. *)
Definition Values_Add (key value : string) (v : Values) : Values :=
  <[key := (default [] (v !! key) ++ [value])%list]> v.

(** [slices.Sort] on strings: byte-wise lexicographic order. *)
Fixpoint sort_insert (k : string) (l : list string) : list string :=
  match l with
  | [] => [k]
  | k' :: l' => if String.leb k k' then k :: l else k' :: sort_insert k l'
  end.

Definition slices_Sort (l : list string) : list string :=
  foldr sort_insert [] l.

(** The inner loop of [Values.Encode] over the values of one key. *)
Fixpoint encode_values (keyEscaped : string) (vs : list string) (buf : string) : string :=
  match vs with
  | [] => buf
  | v :: vs' =>
      let buf := if String.eqb buf "" then buf else buf ++ "&" in
      encode_values keyEscaped vs' (buf ++ keyEscaped ++ "=" ++ QueryEscape v)
  end.

(** The outer loop of [Values.Encode] over the sorted keys. *)
Fixpoint encode_keys (v : Values) (keys : list string) (buf : string) : string :=
  match keys with
  | [] => buf
  | k :: keys' =>
      encode_keys v keys' (encode_values (QueryEscape k) (default [] (v !! k)) buf)
  end.

(** [Values.Encode]: "URL encoded" form, sorted by key. *)
Definition Values_Encode (v : Values) : string :=
  encode_keys v (slices_Sort (map fst (map_to_list v))) "".

(** ** Byte sources *)

(** The concrete reader kinds the package and its tests hand to [Body]. *)
Inductive Reader : Type :=
| bytes_Buffer (unread : list byte)        (* [*bytes.Buffer] *)
| bytes_Reader (unread : list byte)        (* [*bytes.Reader] *)
| strings_Reader (unread : string)         (* [*strings.Reader] *)
| other_Reader (content : list byte).      (* any other [io.Reader] *)


Inductive ReadCloser : Type :=
| io_NopCloser (r : Reader)
| http_NoBody.

(** ** context *)

Inductive Context : Type :=
| Background
| TODO
| WithValue (parent : Context) (key val : string).

(** [ctx == context.Background()]. *)
Definition is_Background (ctx : Context) : bool :=
  match ctx with
  | Background => true
  | _ => false
  end.

(** [ctx.Value(key)]. *)
Fixpoint Context_Value (ctx : Context) (key : string) : option string :=
  match ctx with
  | WithValue parent k v => if String.eqb k key then Some v else Context_Value parent key
  | _ => None
  end.

(** ** net/http: requests *)

Record URL : Type := mkURL {
  Scheme : string;
  Host : string;
  Path : string;
  RawQuery : string;
  Fragment : string
}.

Record Request : Type := mkRequest {
  Request_Method : string;
  url : URL;
  header : Header;
  body : option ReadCloser;
  GetBody : option (unit -> result ReadCloser);
  ContentLength : Z;
  form : Values;
  ctx : Context
}.

Definition set_Method (m : string) (q : Request) : Request :=
  mkRequest m (url q) (header q) (body q) (GetBody q) (ContentLength q) (form q) (ctx q).
Definition set_RawQuery (s : string) (q : Request) : Request :=
  mkRequest (Request_Method q)
    (mkURL (Scheme (url q)) (Host (url q)) (Path (url q)) s (Fragment (url q)))
    (header q) (body q) (GetBody q) (ContentLength q) (form q) (ctx q).
Definition set_header (h : Header) (q : Request) : Request :=
  mkRequest (Request_Method q) (url q) h (body q) (GetBody q) (ContentLength q) (form q) (ctx q).
Definition set_body (b : option ReadCloser) (q : Request) : Request :=
  mkRequest (Request_Method q) (url q) (header q) b (GetBody q) (ContentLength q) (form q) (ctx q).
Definition set_form (f : Values) (q : Request) : Request :=
  mkRequest (Request_Method q) (url q) (header q) (body q) (GetBody q) (ContentLength q) f (ctx q).

(** [Request.WithContext]: a shallow copy with the context replaced. *)
Definition WithContext (c : Context) (q : Request) : Request :=
  mkRequest (Request_Method q) (url q) (header q) (body q) (GetBody q) (ContentLength q) (form q) c.

Record Response : Type := mkResponse {
  StatusCode : Z;
  response_body : string
}.

(** A [*http.Client]; the builder only stores and forwards the pointer. *)
Inductive Client : Type :=
| client_at (address : nat).

(** ** mime/multipart: forms *)

(** A [multipart.File] as [io.Copy] sees it: the bytes it delivers, then
    end of file or a read error. *)
Record File : Type := mkFile {
  file_content : list byte;
  file_read_error : option error
}.

Record FileHeader : Type := mkFileHeader {
  Filename : string;
  FileHeader_Open : result File
}.

(** [multipart.Form]; both maps may be [nil]. *)
Record multipart_Form : Type := mkForm {
  Form_Value : option (gmap string (list string));
  Form_File : option (gmap string (list FileHeader))
}.

(** The form as a caller can hand it over: the [*multipart.Form] itself is
    an [option] of this record, and each [*FileHeader] in it may be
    [nil]. *)
Record nilable_Form : Type := mkNilableForm {
  NForm_Value : option (gmap string (list string));
  NForm_File : option (gmap string (list (option FileHeader)))
}.

(** ** The builder *)

Record RequestBuilder : Type := mkRequestBuilder {
  retryTimes : Z;            (* [uint], 64 bits wide *)
  err : option error;
  req : option Request;      (* [*http.Request] *)
  client : option Client
}.

Definition set_retryTimes (n : Z) (r : RequestBuilder) : RequestBuilder :=
  mkRequestBuilder n (err r) (req r) (client r).
Definition set_err (e : option error) (r : RequestBuilder) : RequestBuilder :=
  mkRequestBuilder (retryTimes r) e (req r) (client r).
Definition set_req (q : option Request) (r : RequestBuilder) : RequestBuilder :=
  mkRequestBuilder (retryTimes r) (err r) q (client r).

(** An assignment [r.req.F = x]: dereferences [r.req], then writes. *)
Definition update_req (f : Request -> Request) (r : RequestBuilder) : outcome RequestBuilder :=
  match req r with
  | None => Panicked nil_pointer_dereference
  | Some q => Returned (set_req (Some (f q)) r)
  end.

(** The width of [uint] and [int] (on a 64-bit target). *)
Definition uint_bits : Z := 64.

(** The conversion [int(n)] of a [uint]: the same bits read as two's
    complement. *)
Definition int_of_uint (n : Z) : Z :=
  if n <? 2 ^ (uint_bits - 1) then n else n - 2 ^ uint_bits.

(** ** Stand-ins for the library, to run the examples

    Concrete instances of the library functions the package is
    parametrised by.  Each agrees with the Go library on the inputs the
    examples feed it. *)

Definition crlf : string := String "013" (String "010" EmptyString).
Definition dquote : string := String "034" EmptyString.

(** The text of the [*url.Error] that [url.Parse] returns for a URL
    without a scheme: [parse], the quoted URL, and the cause. *)
Definition url_parse_error (u : string) : error :=
  errorString ("parse " ++ dquote ++ u ++ dquote ++ ": missing protocol scheme").

(** [url.Parse] on the URL of the test suite and on [:], which has no
    scheme and is rejected. *)
Definition example_url_Parse (u : string) : result URL :=
  if String.eqb u "http://localhost"
  then ok (mkURL "http" "localhost" EmptyString EmptyString EmptyString)
  else failed (url_parse_error u).

(** Map iteration in the order in which [map_to_list] enumerates. *)
Definition example_range (A : Type) (m : gmap string A) : list (string * A) :=
  map_to_list m.

(** A few Go values: [nil], booleans, and a channel, which [json.Marshal]
    rejects. *)
Inductive example_Value : Type :=
| go_nil
| go_bool (b : bool)
| go_chan.

Definition example_json_Marshal (v : example_Value) : result (list byte) :=
  match v with
  | go_nil => ok (list_byte_of_string "null")
  | go_bool true => ok (list_byte_of_string "true")
  | go_bool false => ok (list_byte_of_string "false")
  | go_chan => failed (errorString "json: unsupported type: chan int")
  end.

(** A multipart writer with a fixed boundary over an in-memory buffer (to
    which writes never fail); names are written without escaping. *)
Record example_Writer : Type := mkExampleWriter {
  ew_buffer : list byte;
  ew_parts : nat
}.

Definition example_boundary : string := "0123456789abcdef".

Definition ew_emit (s : string) (w : example_Writer) : example_Writer :=
  mkExampleWriter (ew_buffer w ++ list_byte_of_string s)%list (ew_parts w).

(** [CreatePart]: the delimiter line, then the part's header. *)
Definition ew_CreatePart (hdr : string) (w : example_Writer) : example_Writer :=
  let delimiter := match ew_parts w with
                   | O => "--" ++ example_boundary ++ crlf
                   | S _ => crlf ++ "--" ++ example_boundary ++ crlf
                   end in
  mkExampleWriter (ew_buffer w ++ list_byte_of_string (delimiter ++ hdr ++ crlf))%list
                  (S (ew_parts w)).

Definition example_WriteField (key value : string) (w : example_Writer)
  : example_Writer * option error :=
  (ew_emit value
     (ew_CreatePart ("Content-Disposition: form-data; name=" ++ dquote ++ key ++ dquote ++ crlf) w),
   None).

Definition example_CreateFormFile (key filename : string) (w : example_Writer)
  : example_Writer * option error :=
  (ew_CreatePart ("Content-Disposition: form-data; name=" ++ dquote ++ key ++ dquote
                  ++ "; filename=" ++ dquote ++ filename ++ dquote ++ crlf
                  ++ "Content-Type: application/octet-stream" ++ crlf) w,
   None).

Definition example_part_Write (data : list byte) (w : example_Writer)
  : example_Writer * option error :=
  (mkExampleWriter (ew_buffer w ++ data)%list (ew_parts w), None).

Definition example_FormDataContentType (w : example_Writer) : string :=
  "multipart/form-data; boundary=" ++ example_boundary.

Definition example_Close (w : example_Writer) : example_Writer * option error :=
  (ew_emit (crlf ++ "--" ++ example_boundary ++ "--" ++ crlf) w, None).

Definition example_NewWriter : example_Writer := mkExampleWriter [] O.

(** A transport that refuses the first two connections and then answers;
    the world counts the calls made so far. *)
Definition flaky_Client_Do (c : Client) (q : Request) (w : nat) : result Response * nat :=
  (if (w <? 2)%nat then failed (errorString "connection refused")
   else ok (mkResponse 200 "Hello, test!"),
   S w).

(** A transport that refuses every connection, numbering the refusals. *)
Definition dead_Client_Do (c : Client) (q : Request) (w : nat) : result Response * nat :=
  (failed (errorString (String (ascii_of_nat (48 + w)) EmptyString)), S w).

(** A transport that answers at once. *)
Definition live_Client_Do (c : Client) (q : Request) (w : nat) : result Response * nat :=
  (ok (mkResponse 200 "Hello, test!"), S w).

(** The request [http.NewRequest] makes of [http://localhost]. *)
Definition localhost : Request :=
  mkRequest "GET" (mkURL "http" "localhost" EmptyString EmptyString EmptyString)
            ∅ None None 0 ∅ Background.

(** An uploaded file whose temporary copy is gone: [Open] fails. *)
Definition missing_upload : FileHeader :=
  mkFileHeader "report.txt"
    (failed (errorString "open /tmp/multipart-1: no such file or directory")).

(** An upload that opens and reads. *)
Definition small_upload : FileHeader :=
  mkFileHeader "hello.txt" (ok (mkFile (list_byte_of_string "hello") None)).

Definition example_form : multipart_Form :=
  mkForm (Some {["key" := ["value"]]})
         (Some {["upload" := [small_upload; missing_upload]]}).

(** A builder on which a header and a body have already been set. *)
Definition drafted : RequestBuilder :=
  mkRequestBuilder 0 None
    (Some (set_body (Some (io_NopCloser (strings_Reader "draft")))
             (set_header {["Content-Type" := ["text/plain"]]} localhost)))
    None.

(** Map iteration in the opposite order. *)
Definition example_range_reversed (A : Type) (m : gmap string A) : list (string * A) :=
  reverse (map_to_list m).

(** The builder [New("http://localhost").Json(make(chan int))] leaves. *)
Definition json_rejected : RequestBuilder :=
  mkRequestBuilder 0 (Some (errorString "json: unsupported type: chan int"))
                   (Some localhost) None.

Section Httpx.

(** [url.Parse] as [http.NewRequest] uses it. *)
Variable url_Parse : string -> result URL.

(** [http.NewRequest(http.MethodGet, url, nil)]: the method is valid and
    the context is [context.Background()], so only the URL can be
    rejected. *)
Definition http_NewRequest_GET (u : string) : result Request :=
  match url_Parse u with
  | failed e => failed e
  | ok u' => ok (mkRequest "GET" u' ∅ None None 0 ∅ Background)
  end.

Definition New (u : string) : RequestBuilder :=
  match http_NewRequest_GET u with
  | ok q => mkRequestBuilder 0 None (Some q) None
  | failed e => mkRequestBuilder 0 (Some e) None None
  end.

Definition Err (r : RequestBuilder) : option error := err r.

Definition Method (method : string) (r : RequestBuilder) : outcome RequestBuilder :=
  update_req (set_Method method) r.

Definition Get := Method "GET".
Definition Post := Method "POST".
Definition Put := Method "PUT".
Definition Patch := Method "PATCH".
Definition Delete := Method "DELETE".
Definition Head := Method "HEAD".
Definition Connect := Method "CONNECT".
Definition Options := Method "OPTIONS".
Definition Trace := Method "TRACE".

Definition Body (b : ReadCloser) (r : RequestBuilder) : outcome RequestBuilder :=
  update_req (set_body (Some b)) r.

Definition SetHeader (key value : string) (r : RequestBuilder) : outcome RequestBuilder :=
  match err r with
  | Some _ => Returned r
  | None => update_req (fun q => set_header (Header_Set key value (header q)) q) r
  end.

Definition Form (values : Values) (r : RequestBuilder) : outcome RequestBuilder :=
  match err r with
  | Some _ => Returned r
  | None => update_req (set_form values) r
  end.

(** The order in which a [range] statement visits a map: some
    enumeration of its entries. *)
Variable range : forall A : Type, gmap string A -> list (string * A).
Hypothesis range_perm : forall (A : Type) (m : gmap string A), range A m ≡ₚ map_to_list m.

(** The loop of [Query]:
    [query := url.Values{}; for key, value := range queries { query.Add(key, value) }]. *)
Definition collect_queries (queries : gmap string string) : Values :=
  fold_left (fun query kv => Values_Add (fst kv) (snd kv) query) (range string queries) ∅.

Definition Query (queries : gmap string string) (r : RequestBuilder) : outcome RequestBuilder :=
  match err r with
  | Some _ => Returned r
  | None =>
      let query := collect_queries queries in
      update_req (fun q => set_RawQuery (RawQuery (url q) ++ Values_Encode query) q) r
  end.

Definition AddQuery (key value : string) (r : RequestBuilder) : outcome RequestBuilder :=
  match err r with
  | Some _ => Returned r
  | None => Query {[key := value]} r
  end.

(** A chain of calls [r.Query(m1).Query(m2)...]. *)
Fixpoint Query_chain (l : list (gmap string string)) (r : RequestBuilder)
  : outcome RequestBuilder :=
  match l with
  | [] => Returned r
  | queries :: l' => r <- Query queries r ;;; Query_chain l' r
  end.

(** The text each call of a chain appends. *)
Definition appended_texts (l : list (gmap string string)) : list string :=
  map (fun m => Values_Encode (collect_queries m)) l.

(** The values handed to [Json] and what [json.Marshal] makes of them. *)
Variable Value : Type.
Variable json_Marshal : Value -> result (list byte).

Definition Json (v : Value) (r : RequestBuilder) : outcome RequestBuilder :=
  match err r with
  | Some _ => Returned r
  | None =>
      match json_Marshal v with
      | failed e => Returned (set_err (Some e) r)
      | ok data =>
          r <- SetHeader "Content-Type" "application/json" r ;;;
          Body (io_NopCloser (bytes_Buffer data)) r
      end
  end.

Definition PostForm (values : Values) (r : RequestBuilder) : outcome RequestBuilder :=
  match err r with
  | Some _ => Returned r
  | None =>
      r <- SetHeader "Content-Type" "application/x-www-form-urlencoded" r ;;;
      Body (io_NopCloser (strings_Reader (Values_Encode values))) r
  end.

Definition Retry (n : Z) (r : RequestBuilder) : outcome RequestBuilder :=
  Returned (set_retryTimes n r).

(** *** Multipart encoding *)

(** The state of a [multipart.Writer] together with the [bytes.Buffer] it
    writes to.  Each operation returns the state it leaves behind and the
    error it reports, if any. *)
Variable Writer : Type.
(** [multipart.NewWriter(bytes.NewBuffer(nil))], boundary included. *)
Variable multipart_NewWriter : Writer.
Variable Writer_WriteField : string -> string -> Writer -> Writer * option error.
Variable Writer_CreateFormFile : string -> string -> Writer -> Writer * option error.
(** [Write] on the part that [CreateFormFile] returned last. *)
Variable part_Write : list byte -> Writer -> Writer * option error.
Variable Writer_FormDataContentType : Writer -> string.
Variable Writer_Close : Writer -> Writer * option error.
(** The bytes accumulated in the buffer under the writer. *)
Variable Writer_buffer : Writer -> list byte.

(** [io.Copy(w, f)]: the bytes of [f] go to the part; a write error
    stops the copy, otherwise the read error of [f] is reported. *)
Definition io_Copy (f : File) (w : Writer) : Writer * option error :=
  let '(w', we) := part_Write (file_content f) w in
  match we with
  | Some e => (w', Some e)
  | None => (w', file_read_error f)
  end.

(** [for _, value := range values { writer.WriteField(key, value) }] *)
Fixpoint write_values (key : string) (values : list string) (w : Writer)
  : Writer * option error :=
  match values with
  | [] => (w, None)
  | value :: values' =>
      let '(w', e) := Writer_WriteField key value w in
      match e with
      | Some e => (w', Some e)
      | None => write_values key values' w'
      end
  end.

(** [for key, values := range form.Value { ... }] *)
Fixpoint write_fields (entries : list (string * list string)) (w : Writer)
  : Writer * option error :=
  match entries with
  | [] => (w, None)
  | (key, values) :: entries' =>
      let '(w', e) := write_values key values w in
      match e with
      | Some e => (w', Some e)
      | None => write_fields entries' w'
      end
  end.

(** The body of the loop over the files of one key: create the part,
    open the file, copy it, close it. *)
Definition write_file (key : string) (file : FileHeader) (w : Writer)
  : Writer * option error :=
  let '(w1, e) := Writer_CreateFormFile key (Filename file) w in
  match e with
  | Some e => (w1, Some e)
  | None =>
      match FileHeader_Open file with
      | failed e => (w1, Some e)
      | ok f => io_Copy f w1
      end
  end.

Fixpoint write_files_of (key : string) (files : list FileHeader) (w : Writer)
  : Writer * option error :=
  match files with
  | [] => (w, None)
  | file :: files' =>
      let '(w', e) := write_file key file w in
      match e with
      | Some e => (w', Some e)
      | None => write_files_of key files' w'
      end
  end.

(** [for key, files := range form.File { ... }] *)
Fixpoint write_files (entries : list (string * list FileHeader)) (w : Writer)
  : Writer * option error :=
  match entries with
  | [] => (w, None)
  | (key, files) :: entries' =>
      let '(w', e) := write_files_of key files w in
      match e with
      | Some e => (w', Some e)
      | None => write_files entries' w'
      end
  end.

(** The entries a [range] over a possibly [nil] map visits. *)
Definition range_nilable {A : Type} (m : option (gmap string A)) : list (string * A) :=
  match m with
  | None => []
  | Some m => range A m
  end.

(** [MultipartForm].  The deferred [writer.Close()] runs when the method
    returns.  On the error paths it only touches the writer and buffer
    local to the call.  On the success path the request body is the
    very buffer the writer appends to, so the body reads as the buffer
    stands after the deferred call. *)
Definition MultipartForm (form : multipart_Form) (r : RequestBuilder)
  : outcome RequestBuilder :=
  match err r with
  | Some _ => Returned r
  | None =>
      let writer := multipart_NewWriter in
      let '(writer, e) := write_fields (range_nilable (Form_Value form)) writer in
      match e with
      | Some e => Returned (set_err (Some e) r)
      | None =>
          let '(writer, e) := write_files (range_nilable (Form_File form)) writer in
          match e with
          | Some e => Returned (set_err (Some e) r)
          | None =>
              let contentType := Writer_FormDataContentType writer in
              let '(writer, e) := Writer_Close writer in
              match e with
              | Some e => Returned (set_err (Some e) r)
              | None =>
                  let deferred := fst (Writer_Close writer) in
                  r <- SetHeader "Content-Type" contentType r ;;;
                  Body (io_NopCloser (bytes_Buffer (Writer_buffer deferred))) r
              end
          end
      end
  end.

(** *** Multipart encoding with [nil] pointers

    [MultipartForm] again, on every argument it can be called with.  The
    guard on the error slot comes first; [form.Value] then dereferences
    the form, and [file.Filename] dereferences each file header the loop
    reaches.  Both panics happen before the builder is written to. *)

Fixpoint write_files_of_nilable (key : string) (files : list (option FileHeader))
  (w : Writer) : outcome (Writer * option error) :=
  match files with
  | [] => Returned (w, None)
  | None :: _ => Panicked nil_pointer_dereference
  | Some file :: files' =>
      let '(w', e) := write_file key file w in
      match e with
      | Some e => Returned (w', Some e)
      | None => write_files_of_nilable key files' w'
      end
  end.

Fixpoint write_files_nilable (entries : list (string * list (option FileHeader)))
  (w : Writer) : outcome (Writer * option error) :=
  match entries with
  | [] => Returned (w, None)
  | (key, files) :: entries' =>
      res <- write_files_of_nilable key files w ;;;
      match res with
      | (w', Some e) => Returned (w', Some e)
      | (w', None) => write_files_nilable entries' w'
      end
  end.

Definition MultipartForm_nilable (form : option nilable_Form) (r : RequestBuilder)
  : outcome RequestBuilder :=
  match err r with
  | Some _ => Returned r
  | None =>
      match form with
      | None => Panicked nil_pointer_dereference
      | Some form =>
          let writer := multipart_NewWriter in
          let '(writer, e) := write_fields (range_nilable (NForm_Value form)) writer in
          match e with
          | Some e => Returned (set_err (Some e) r)
          | None =>
              res <- write_files_nilable (range_nilable (NForm_File form)) writer ;;;
              let '(writer, e) := res in
              match e with
              | Some e => Returned (set_err (Some e) r)
              | None =>
                  let contentType := Writer_FormDataContentType writer in
                  let '(writer, e) := Writer_Close writer in
                  match e with
                  | Some e => Returned (set_err (Some e) r)
                  | None =>
                      let deferred := fst (Writer_Close writer) in
                      r <- SetHeader "Content-Type" contentType r ;;;
                      Body (io_NopCloser (bytes_Buffer (Writer_buffer deferred))) r
                  end
              end
          end
      end
  end.


(** *** Terminal operations *)

(** What [Build] hands out: the pointer [r.req] itself, or a request
    freshly allocated by [WithContext]. *)
Inductive built : Type :=
| pending (q : Request)
| rebound (q : Request).

Definition request_of (b : built) : Request :=
  match b with
  | pending q | rebound q => q
  end.

Definition BuildWithContext (c : Context) (r : RequestBuilder)
  : outcome (option built * option error) :=
  match err r with
  | Some e => Returned (None, Some e)
  | None =>
      if is_Background c then Returned (pending <$> req r, None)
      else
        match req r with
        | None => Panicked nil_pointer_dereference
        | Some q => Returned (Some (rebound (WithContext c q)), None)
        end
  end.

Definition Build (r : RequestBuilder) : outcome (option built * option error) :=
  BuildWithContext Background r.

(** [BuildWithContext] on every value of the interface type
    [context.Context], the [nil] interface ([None]) included.  A nil
    context is not the background context, and [Request.WithContext]
    panics on it before it touches the request. *)
Definition BuildWithContext_nilable (c : option Context) (r : RequestBuilder)
  : outcome (option built * option error) :=
  match c with
  | Some c => BuildWithContext c r
  | None =>
      match err r with
      | Some e => Returned (None, Some e)
      | None => Panicked nil_context
      end
  end.

(** The world the transport talks to, and [http.Client.Do]. *)
Variable World : Type.
Variable Client_Do : Client -> Request -> World -> result Response * World.
Variable http_DefaultClient : Client.

(** What [Do] returns, the world it leaves, and (ghost) the results of
    the calls of [client.Do] it made, oldest first. *)
Record Do_result : Type := mkDone {
  done_resp : option Response;
  done_err : option error;
  done_world : World;
  done_calls : list (result Response)
}.

(** [n] more iterations of
    [for ... { resp, err = client.Do(req); if err == nil { return resp, nil } }]
    followed by [return nil, err]. *)
Fixpoint retry_loop (n : nat) (c : Client) (q : Request) (e : option error)
  (w : World) (calls : list (result Response)) : Do_result :=
  match n with
  | O => mkDone None e w calls
  | S n' =>
      match Client_Do c q w with
      | (ok resp, w') => mkDone (Some resp) None w' (calls ++ [ok resp])%list
      | (failed e', w') => retry_loop n' c q (Some e') w' (calls ++ [failed e'])%list
      end
  end.

Definition Do (r : RequestBuilder) (w : World) : outcome Do_result :=
  built_err <- Build r ;;;
  match built_err with
  | (_, Some e) => Returned (mkDone None (Some e) w [])
  | (b, None) =>
      let client := default http_DefaultClient (client r) in
      let retryTimes := if retryTimes r =? 0 then 1 else retryTimes r in
      match b, Z.to_nat (int_of_uint retryTimes) with
      | Some b, n => Returned (retry_loop n client (request_of b) None w [])
      | None, O => Returned (mkDone None None w [])
      | None, S _ => Panicked nil_pointer_dereference  (* [client.Do(nil)] *)
      end
  end.

(** The results of [k] calls of [client.Do(req)] made one after the other
    from the world [w], and the world they leave. *)
Fixpoint successive_calls (k : nat) (c : Client) (q : Request) (w : World)
  : list (result Response) * World :=
  match k with
  | O => ([], w)
  | S k' =>
      let '(res, w') := Client_Do c q w in
      let '(l, w'') := successive_calls k' c q w' in
      (res :: l, w'')
  end.

Definition is_failed (res : result Response) : Prop :=
  match res with
  | failed _ => True
  | ok _ => False
  end.

(** One configuration call that returns. *)
Inductive configures : RequestBuilder -> RequestBuilder -> Prop :=
| by_Method (m : string) (r r' : RequestBuilder) :
    Method m r = Returned r' -> configures r r'
| by_Body (b : ReadCloser) (r r' : RequestBuilder) :
    Body b r = Returned r' -> configures r r'
| by_SetHeader (k v : string) (r r' : RequestBuilder) :
    SetHeader k v r = Returned r' -> configures r r'
| by_Form (values : Values) (r r' : RequestBuilder) :
    Form values r = Returned r' -> configures r r'
| by_Query (queries : gmap string string) (r r' : RequestBuilder) :
    Query queries r = Returned r' -> configures r r'
| by_AddQuery (k v : string) (r r' : RequestBuilder) :
    AddQuery k v r = Returned r' -> configures r r'
| by_Json (v : Value) (r r' : RequestBuilder) :
    Json v r = Returned r' -> configures r r'
| by_PostForm (values : Values) (r r' : RequestBuilder) :
    PostForm values r = Returned r' -> configures r r'
| by_MultipartForm (f : multipart_Form) (r r' : RequestBuilder) :
    MultipartForm f r = Returned r' -> configures r r'
| by_Retry (n : Z) (r r' : RequestBuilder) :
    Retry n r = Returned r' -> configures r r'.

(** The builders a caller can hold: made by [New], then configured. *)
Inductive reachable : RequestBuilder -> Prop :=
| reachable_New (u : string) : reachable (New u)
| reachable_step (r r' : RequestBuilder) :
    reachable r -> configures r r' -> reachable r'.

(** A builder without an error has a request to configure. *)
Definition has_request (r : RequestBuilder) : Prop :=
  err r = None -> exists q : Request, req r = Some q.

(** One call of a setter that tests the error slot first. *)
Inductive configures_guarded : RequestBuilder -> RequestBuilder -> Prop :=
| guarded_SetHeader (k v : string) (r r' : RequestBuilder) :
    SetHeader k v r = Returned r' -> configures_guarded r r'
| guarded_Form (values : Values) (r r' : RequestBuilder) :
    Form values r = Returned r' -> configures_guarded r r'
| guarded_Query (queries : gmap string string) (r r' : RequestBuilder) :
    Query queries r = Returned r' -> configures_guarded r r'
| guarded_AddQuery (k v : string) (r r' : RequestBuilder) :
    AddQuery k v r = Returned r' -> configures_guarded r r'
| guarded_Json (v : Value) (r r' : RequestBuilder) :
    Json v r = Returned r' -> configures_guarded r r'
| guarded_PostForm (values : Values) (r r' : RequestBuilder) :
    PostForm values r = Returned r' -> configures_guarded r r'
| guarded_MultipartForm (f : multipart_Form) (r r' : RequestBuilder) :
    MultipartForm f r = Returned r' -> configures_guarded r r'.

(** A chain of configuration calls, each returning. *)
Inductive configured : RequestBuilder -> RequestBuilder -> Prop :=
| configured_refl (r : RequestBuilder) : configured r r
| configured_step (r r' r'' : RequestBuilder) :
    configured r r' -> configures r' r'' -> configured r r''.

(** A chain of guarded calls. *)
Inductive configured_guarded : RequestBuilder -> RequestBuilder -> Prop :=
| configured_guarded_refl (r : RequestBuilder) : configured_guarded r r
| configured_guarded_step (r r' r'' : RequestBuilder) :
    configured_guarded r r' -> configures_guarded r' r'' -> configured_guarded r r''.

(** * Properties *)

(** ** The guarded configuration calls under a sticky error *)

Lemma SetHeader_sticky (key value : string) (r : RequestBuilder) (e : error) :
  err r = Some e -> SetHeader key value r = Returned r.
Proof. intros H. unfold SetHeader. now rewrite H. Qed.

Lemma Form_sticky (values : Values) (r : RequestBuilder) (e : error) :
  err r = Some e -> Form values r = Returned r.
Proof. intros H. unfold Form. now rewrite H. Qed.

Lemma Query_sticky (queries : gmap string string) (r : RequestBuilder) (e : error) :
  err r = Some e -> Query queries r = Returned r.
Proof. intros H. unfold Query. now rewrite H. Qed.

Lemma AddQuery_sticky (key value : string) (r : RequestBuilder) (e : error) :
  err r = Some e -> AddQuery key value r = Returned r.
Proof. intros H. unfold AddQuery. now rewrite H. Qed.

Lemma Json_sticky (v : Value) (r : RequestBuilder) (e : error) :
  err r = Some e -> Json v r = Returned r.
Proof. intros H. unfold Json. now rewrite H. Qed.

Lemma PostForm_sticky (values : Values) (r : RequestBuilder) (e : error) :
  err r = Some e -> PostForm values r = Returned r.
Proof. intros H. unfold PostForm. now rewrite H. Qed.

Lemma MultipartForm_sticky (f : multipart_Form) (r : RequestBuilder) (e : error) :
  err r = Some e -> MultipartForm f r = Returned r.
Proof. intros H. unfold MultipartForm. now rewrite H. Qed.

(** The terminal operations surface the sticky error and go no further. *)
Lemma BuildWithContext_sticky (c : Context) (r : RequestBuilder) (e : error) :
  err r = Some e -> BuildWithContext c r = Returned (None, Some e).
Proof. intros H. unfold BuildWithContext. now rewrite H. Qed.

Lemma Do_sticky (r : RequestBuilder) (w : World) (e : error) :
  err r = Some e -> Do r w = Returned (mkDone None (Some e) w []).
Proof.
  intros H. unfold Do, Build. rewrite (BuildWithContext_sticky _ _ _ H). reflexivity.
Qed.

(** ** The unguarded calls: [Method] and [Body] *)

(** [Method] and [Body] write through [r.req] whatever the error slot
    holds, and panic when there is no request to write to. *)
Lemma Method_writes (method : string) (r : RequestBuilder) (q : Request) :
  req r = Some q -> Method method r = Returned (set_req (Some (set_Method method q)) r).
Proof. intros H. unfold Method, update_req. now rewrite H. Qed.

Lemma Method_nil (method : string) (r : RequestBuilder) :
  req r = None -> Method method r = Panicked nil_pointer_dereference.
Proof. intros H. unfold Method, update_req. now rewrite H. Qed.

Lemma Body_writes (b : ReadCloser) (r : RequestBuilder) (q : Request) :
  req r = Some q -> Body b r = Returned (set_req (Some (set_body (Some b) q)) r).
Proof. intros H. unfold Body, update_req. now rewrite H. Qed.

Lemma Body_nil (b : ReadCloser) (r : RequestBuilder) :
  req r = None -> Body b r = Panicked nil_pointer_dereference.
Proof. intros H. unfold Body, update_req. now rewrite H. Qed.

(** C10.  [Body] changes the body field of the pending request and nothing
    else: on a builder that holds a request it returns, with the method,
    the URL and its query, the headers, the form, the context, the declared
    length and the replay function of the request as they were, and with
    the retry count, the error slot and the client of the builder as they
    were; on a builder that holds no request it panics before writing
    anything. *)
Theorem Body_frame (b : ReadCloser) (r : RequestBuilder) :
  match req r with
  | Some q =>
      exists q' : Request,
        Body b r = Returned (mkRequestBuilder (retryTimes r) (err r) (Some q') (client r))
        /\ body q' = Some b
        /\ Request_Method q' = Request_Method q
        /\ url q' = url q
        /\ header q' = header q
        /\ form q' = form q
        /\ ctx q' = ctx q
        /\ ContentLength q' = ContentLength q
        /\ GetBody q' = GetBody q
  | None => Body b r = Panicked nil_pointer_dereference
  end.
Proof.
  destruct (req r) as [q|] eqn:Hq.
  - exists (set_body (Some b) q). rewrite (Body_writes b r q Hq).
    repeat split; reflexivity.
  - now apply Body_nil.
Qed.

(** ** Finalisation *)

(** C6.  [BuildWithContext] returns the sticky error when there is one;
    otherwise, for the background context it returns the pending request
    itself, and for any other context a copy of the pending request bound
    to that context; [Build] is [BuildWithContext] at the background
    context. *)
Theorem BuildWithContext_spec (c : Context) (r : RequestBuilder) :
  (forall e : error, err r = Some e -> BuildWithContext c r = Returned (None, Some e))
  /\ (forall q : Request, err r = None -> req r = Some q ->
        BuildWithContext Background r = Returned (Some (pending q), None)
        /\ (c <> Background ->
            BuildWithContext c r = Returned (Some (rebound (WithContext c q)), None)
            /\ ctx (WithContext c q) = c
            /\ set_body (body q) (WithContext c q) = WithContext c q
            /\ WithContext (ctx q) (WithContext c q) = q))
  /\ Build r = BuildWithContext Background r.
Proof.
  split; [|split].
  - intros e He. now apply BuildWithContext_sticky.
  - intros q He Hq. unfold BuildWithContext. rewrite He, Hq. split; [reflexivity|].
    intros Hc. destruct c; try congruence; simpl; repeat split; destruct q; reflexivity.
  - reflexivity.
Qed.

(** C9.  When request construction rejects the URL, [New] still yields a
    builder; its error slot holds the construction error, [Err] returns
    it, and [Build], [BuildWithContext] and [Do] return exactly it, [Do]
    without a single call of the transport and leaving the world as it
    was. *)
Theorem New_rejected_url (u : string) (e : error) :
  http_NewRequest_GET u = failed e ->
  err (New u) = Some e
  /\ req (New u) = None
  /\ Err (New u) = Some e
  /\ Build (New u) = Returned (None, Some e)
  /\ (forall c : Context, BuildWithContext c (New u) = Returned (None, Some e))
  /\ (forall w : World,
        Do (New u) w = Returned (mkDone None (Some e) w [])).
Proof.
  intros H.
  assert (He : err (New u) = Some e) by (unfold New; now rewrite H).
  repeat split.
  - exact He.
  - unfold New. now rewrite H.
  - exact He.
  - now apply BuildWithContext_sticky.
  - intros c. now apply BuildWithContext_sticky.
  - intros w. now apply Do_sticky.
Qed.

(** ** JSON bodies *)

Lemma Header_Get_Set (key value : string) (h : Header) :
  Header_Get key (Header_Set key value h) = value.
Proof. unfold Header_Get, Header_Set. now rewrite lookup_insert_eq. Qed.

Lemma SetHeader_writes (key value : string) (r : RequestBuilder) (q : Request) :
  err r = None -> req r = Some q ->
  SetHeader key value r = Returned (set_req (Some (set_header (Header_Set key value (header q)) q)) r).
Proof. intros He Hq. unfold SetHeader, update_req. now rewrite He, Hq. Qed.

(** C4.  On a builder with no sticky error: when serialisation fails,
    [Json] puts the error into the error slot and leaves the request, its
    body and headers included, as it was; when it succeeds, [Json] sets
    the header [Content-Type] to [application/json] (other headers
    untouched) and the body to a buffer holding exactly the serialised
    bytes, and the error slot stays empty. *)
Theorem Json_spec (v : Value) (r : RequestBuilder) (q : Request) :
  err r = None -> req r = Some q ->
  (forall e : error, json_Marshal v = failed e ->
     Json v r = Returned (mkRequestBuilder (retryTimes r) (Some e) (Some q) (client r)))
  /\ (forall data : list byte, json_Marshal v = ok data ->
        exists q' : Request,
          Json v r = Returned (mkRequestBuilder (retryTimes r) None (Some q') (client r))
          /\ Header_Get "Content-Type" (header q') = "application/json"
          /\ header q' = <["Content-Type" := ["application/json"]]> (header q)
          /\ body q' = Some (io_NopCloser (bytes_Buffer data))
          /\ set_body (body q) (set_header (header q) q') = q).
Proof.
  intros He Hq. destruct r as [n e0 q0 c]; simpl in *; subst. split.
  - intros e Hm. unfold Json. simpl. now rewrite Hm.
  - intros data Hm. unfold Json. simpl. rewrite Hm.
    exists (set_body (Some (io_NopCloser (bytes_Buffer data)))
              (set_header (Header_Set "Content-Type" "application/json" (header q)) q)).
    split; [reflexivity|].
    split; [apply Header_Get_Set|]. split; [reflexivity|]. split; [reflexivity|].
    destruct q; reflexivity.
Qed.

(** ** Query strings *)

Lemma string_app_assoc (a b c : string) : (a ++ b) ++ c = a ++ (b ++ c).
Proof.
  induction a as [|x a IH]; [reflexivity|].
  change (String x ((a ++ b) ++ c) = String x (a ++ (b ++ c))). now rewrite IH.
Qed.

Lemma string_app_nil_r (a : string) : a ++ EmptyString = a.
Proof.
  induction a as [|x a IH]; [reflexivity|].
  change (String x (a ++ EmptyString) = String x a). now rewrite IH.
Qed.

(** A single-entry map is visited in the only order there is. *)
Lemma collect_queries_singleton (k v : string) :
  collect_queries {[k := v]} = {[k := [v]]}.
Proof.
  unfold collect_queries.
  assert (H : range string {[k := v]} = [(k, v)]).
  { apply Permutation_singleton_r. rewrite range_perm. now rewrite map_to_list_singleton. }
  rewrite H. simpl. unfold Values_Add. rewrite lookup_empty. simpl.
  apply insert_empty.
Qed.

Lemma Values_Encode_singleton (k v : string) :
  Values_Encode {[k := [v]]} = QueryEscape k ++ "=" ++ QueryEscape v.
Proof.
  unfold Values_Encode. rewrite map_to_list_singleton. simpl.
  rewrite lookup_singleton_eq. reflexivity.
Qed.

Lemma Query_writes (queries : gmap string string) (r : RequestBuilder) (q : Request) :
  err r = None -> req r = Some q ->
  Query queries r =
  Returned (set_req (Some (set_RawQuery
     (RawQuery (url q) ++ Values_Encode (collect_queries queries)) q)) r).
Proof. intros He Hq. unfold Query, update_req. now rewrite He, Hq. Qed.

Lemma String_concat_cons (x : string) (l : list string) :
  String.concat EmptyString (x :: l) = x ++ String.concat EmptyString l.
Proof. destruct l; simpl; [now rewrite string_app_nil_r | reflexivity]. Qed.

Lemma String_concat_app (l1 l2 : list string) :
  String.concat EmptyString (l1 ++ l2)
  = String.concat EmptyString l1 ++ String.concat EmptyString l2.
Proof.
  induction l1 as [|x l1 IH]; [reflexivity|].
  change ((x :: l1) ++ l2)%list with (x :: (l1 ++ l2))%list.
  now rewrite !String_concat_cons, IH, string_app_assoc.
Qed.

Lemma Query_chain_writes (l : list (gmap string string)) :
  forall (n : Z) (q : Request) (c : option Client),
    Query_chain l (mkRequestBuilder n None (Some q) c) =
    Returned (mkRequestBuilder n None (Some (set_RawQuery
       (RawQuery (url q) ++ String.concat EmptyString (appended_texts l)) q)) c).
Proof.
  unfold appended_texts.
  induction l as [|m l IH]; intros n q c.
  - simpl. rewrite string_app_nil_r. destruct q as [a [] b c0 d e f g]; reflexivity.
  - cbn [Query_chain].
    rewrite (Query_writes m (mkRequestBuilder n None (Some q) c) q eq_refl eq_refl).
    cbn [bind]. unfold set_req. cbn [retryTimes err client].
    rewrite IH. cbn [map]. rewrite String_concat_cons, <- string_app_assoc. reflexivity.
Qed.

(** C7.  On a builder with no sticky error: [Query] with the one entry
    [key] = [value] on a URL with no query yet leaves the raw query
    [key=value]; every [Query] call leaves the raw query it found followed
    by the text it encodes, and the rest of the request as it was; and
    along a chain of [Query] calls the raw query after any first part of
    the chain is a prefix of the raw query after the whole chain. *)
Theorem Query_appends (r : RequestBuilder) (q : Request) :
  err r = None -> req r = Some q ->
  (RawQuery (url q) = EmptyString ->
   exists q' : Request,
     Query {["key" := "value"]} r = Returned (set_req (Some q') r)
     /\ RawQuery (url q') = "key=value")
  /\ (forall queries : gmap string string,
        exists q' : Request,
          Query queries r = Returned (set_req (Some q') r)
          /\ RawQuery (url q')
             = RawQuery (url q) ++ Values_Encode (collect_queries queries)
          /\ set_RawQuery (RawQuery (url q)) q' = q)
  /\ (forall l1 l2 : list (gmap string string),
        exists q1 q2 : Request,
          Query_chain l1 r = Returned (set_req (Some q1) r)
          /\ Query_chain (l1 ++ l2) r = Returned (set_req (Some q2) r)
          /\ RawQuery (url q1)
             = RawQuery (url q) ++ String.concat EmptyString (appended_texts l1)
          /\ RawQuery (url q2)
             = RawQuery (url q1) ++ String.concat EmptyString (appended_texts l2)).
Proof.
  intros He Hq. split; [|split].
  - intros Hempty. eexists. split.
    + apply (Query_writes _ r q He Hq).
    + simpl. rewrite Hempty, collect_queries_singleton, Values_Encode_singleton.
      reflexivity.
  - intros queries. eexists. split; [apply (Query_writes _ r q He Hq)|].
    split; [reflexivity|]. destruct q as [a [] b c0 d e f g]; reflexivity.
  - intros l1 l2. destruct r as [n e0 q0 c]; simpl in He, Hq; subst.
    eexists. eexists. split; [apply Query_chain_writes|].
    split; [apply Query_chain_writes|]. split; [reflexivity|].
    simpl. unfold appended_texts.
    now rewrite map_app, String_concat_app, string_app_assoc.
Qed.

(** C8.  On a builder with no sticky error, [Query] with the single entry
    [k] = [v] leaves as raw query the old raw query immediately followed
    by the encoding of [k=v], with nothing in between; so two [AddQuery]
    calls in a row leave the encodings of [k1=v1] and [k2=v2] next to each
    other. *)
Theorem Query_concatenates_without_separator
  (r : RequestBuilder) (q : Request) (k v : string) :
  err r = None -> req r = Some q ->
  Query {[k := v]} r
  = Returned (set_req (Some (set_RawQuery
      (RawQuery (url q) ++ (QueryEscape k ++ "=" ++ QueryEscape v)) q)) r)
  /\ (forall k2 v2 : string,
        (r1 <- AddQuery k v r ;;; AddQuery k2 v2 r1)
        = Returned (set_req (Some (set_RawQuery
            (RawQuery (url q) ++ (QueryEscape k ++ "=" ++ QueryEscape v)
                              ++ (QueryEscape k2 ++ "=" ++ QueryEscape v2)) q)) r)).
Proof.
  intros He Hq. split.
  - rewrite (Query_writes _ r q He Hq).
    now rewrite collect_queries_singleton, Values_Encode_singleton.
  - intros k2 v2. destruct r as [n e0 q0 c]; simpl in He, Hq; subst.
    unfold AddQuery at 1. cbn [err].
    rewrite (Query_writes _ (mkRequestBuilder n None (Some q) c) q eq_refl eq_refl).
    cbn [bind]. unfold set_req, AddQuery. cbn [retryTimes err client].
    rewrite (Query_writes _ (mkRequestBuilder n None (Some _) c) _ eq_refl eq_refl).
    rewrite !collect_queries_singleton, !Values_Encode_singleton.
    unfold set_req. simpl. now rewrite string_app_assoc.
Qed.

(** ** The retry loop *)

(** What [k] iterations of the loop do: the calls they add to the trace are
    made one after the other, all but the last of them failed, and the
    result is read off the last one. *)
Lemma retry_loop_spec (k : nat) (c : Client) (q : Request) :
  forall (e : option error) (w : World) (calls : list (result Response)),
  exists new : list (result Response),
    let d := retry_loop k c q e w calls in
    done_calls d = (calls ++ new)%list
    /\ (length new <= k)%nat
    /\ successive_calls (length new) c q w = (new, done_world d)
    /\ Forall is_failed (removelast new)
    /\ match last new with
       | Some (ok resp) => done_resp d = Some resp /\ done_err d = None
       | Some (failed e') =>
           done_resp d = None /\ done_err d = Some e' /\ length new = k
       | None => k = O /\ done_resp d = None /\ done_err d = e
       end.
Proof.
  induction k as [|k IH]; intros e w calls.
  - exists []. simpl. rewrite app_nil_r.
    split; [reflexivity|]. split; [lia|]. split; [reflexivity|].
    split; [apply Forall_nil; exact I|]. repeat split; reflexivity.
  - simpl. destruct (Client_Do c q w) as [[resp|e'] w'] eqn:Hcall.
    + exists [ok resp]. simpl. rewrite Hcall.
      split; [reflexivity|]. split; [lia|]. split; [reflexivity|].
      split; [apply Forall_nil; exact I|]. split; reflexivity.
    + destruct (IH (Some e') w' (calls ++ [failed e'])%list) as (new & Hc & Hlen & Hseq & Hfail & Hlast).
      exists (failed e' :: new). simpl. rewrite Hcall, Hseq.
      split; [rewrite Hc, <- app_assoc; reflexivity|].
      split; [lia|]. split; [reflexivity|].
      split.
      * destruct new; [constructor|]. constructor; [exact I|exact Hfail].
      * destruct new as [|x new'].
        -- simpl in *. destruct Hlast as (Hk & Hr & He). repeat split; congruence.
        -- change (last (failed e' :: x :: new')) with (last (x :: new')).
           destruct (last (x :: new')) as [[resp|e'']|].
           ++ exact Hlast.
           ++ destruct Hlast as (Hr & He & Hl). repeat split; congruence.
           ++ destruct Hlast as (Hk & _). simpl in Hlen. lia.
Qed.

Lemma Build_ok (r : RequestBuilder) (q : Request) :
  err r = None -> req r = Some q -> Build r = Returned (Some (pending q), None).
Proof. intros He Hq. unfold Build, BuildWithContext. now rewrite He, Hq. Qed.

(** The number of iterations the loop of [Do] is set up for. *)
Lemma attempt_budget (n : Z) :
  0 <= n < 2 ^ uint_bits ->
  let k := Z.to_nat (int_of_uint (if n =? 0 then 1 else n)) in
  (n < 2 ^ (uint_bits - 1) -> Z.of_nat k = Z.max n 1)
  /\ (2 ^ (uint_bits - 1) <= n -> k = O).
Proof.
  intros Hn k. subst k. unfold int_of_uint.
  change (2 ^ (uint_bits - 1)) with 9223372036854775808 in *.
  change (2 ^ uint_bits) with 18446744073709551616 in *.
  destruct (Z.eqb_spec n 0) as [->|Hnz].
  - split; intros; [reflexivity | lia].
  - destruct (Z.ltb_spec n 9223372036854775808); split; intros; lia.
Qed.

Lemma Do_runs_loop (r : RequestBuilder) (q : Request) (w : World) :
  err r = None -> req r = Some q ->
  Do r w = Returned (retry_loop
    (Z.to_nat (int_of_uint (if retryTimes r =? 0 then 1 else retryTimes r)))
    (default http_DefaultClient (client r)) q None w []).
Proof. intros He Hq. unfold Do. rewrite (Build_ok r q He Hq). reflexivity. Qed.

(** X17.  For every retry count [n] that fits an [int], on a builder with
    no error and a request and against any transport: after [Retry(n)],
    [Do] calls the transport one call after the other, at least once and
    at most [max n 1] times; every call but the last one made reported an
    error; when the last call reports no error its response is returned;
    when it reports an error all [max n 1] attempts have been used and
    that error is returned.  After [Retry(0)] and [Retry(1)] exactly one
    call is made.  After [Retry(3)] a transport failing twice and then
    answering yields the answer after exactly three calls, and one failing
    three times yields the third error after exactly three calls. *)
Theorem Do_after_Retry (n : Z) (r : RequestBuilder) (q : Request) (w : World) :
  err r = None -> req r = Some q -> 0 <= n < 2 ^ (uint_bits - 1) ->
  let c := default http_DefaultClient (client r) in
  exists d : Do_result,
    (r1 <- Retry n r ;;; Do r1 w) = Returned d
    /\ successive_calls (length (done_calls d)) c q w = (done_calls d, done_world d)
    /\ 1 <= Z.of_nat (length (done_calls d)) <= Z.max n 1
    /\ Forall is_failed (removelast (done_calls d))
    /\ (forall resp : Response, last (done_calls d) = Some (ok resp) ->
          done_resp d = Some resp /\ done_err d = None)
    /\ (forall e : error, last (done_calls d) = Some (failed e) ->
          done_resp d = None /\ done_err d = Some e
          /\ Z.of_nat (length (done_calls d)) = Z.max n 1)
    /\ (n = 0 \/ n = 1 -> length (done_calls d) = 1%nat)
    /\ (n = 3 -> forall (e1 e2 : error) (resp : Response) (w1 w2 w3 : World),
          Client_Do c q w = (failed e1, w1) ->
          Client_Do c q w1 = (failed e2, w2) ->
          Client_Do c q w2 = (ok resp, w3) ->
          d = mkDone (Some resp) None w3 [failed e1; failed e2; ok resp])
    /\ (n = 3 -> forall (e1 e2 e3 : error) (w1 w2 w3 : World),
          Client_Do c q w = (failed e1, w1) ->
          Client_Do c q w1 = (failed e2, w2) ->
          Client_Do c q w2 = (failed e3, w3) ->
          d = mkDone None (Some e3) w3 [failed e1; failed e2; failed e3]).
Proof.
  intros He Hq Hn c. unfold Retry. cbn [bind].
  rewrite (Do_runs_loop (set_retryTimes n r) q w He Hq).
  change (retryTimes (set_retryTimes n r)) with n.
  change (default http_DefaultClient (client (set_retryTimes n r))) with c.
  set (k := Z.to_nat (int_of_uint (if n =? 0 then 1 else n))).
  assert (Hk : Z.of_nat k = Z.max n 1).
  { destruct (attempt_budget n) as [Hsmall _].
    - change (2 ^ uint_bits) with 18446744073709551616.
      change (2 ^ (uint_bits - 1)) with 9223372036854775808 in Hn. lia.
    - apply Hsmall. apply Hn. }
  destruct (retry_loop_spec k c q None w []) as (new & Hc & Hlen & Hseq & Hfail & Hlast).
  exists (retry_loop k c q None w []).
  cbv zeta in Hc, Hseq, Hlast. simpl in Hc. rewrite Hc.
  split; [reflexivity|]. split; [exact Hseq|].
  assert (Hne : (1 <= length new)%nat).
  { destruct new as [|x new']; [|simpl; lia].
    simpl in Hlast. destruct Hlast as (Hk0 & _). lia. }
  split; [lia|]. split; [exact Hfail|].
  split.
  { intros resp Hl. rewrite Hl in Hlast. exact Hlast. }
  split.
  { intros e Hl. rewrite Hl in Hlast. destruct Hlast as (Hr & Hee & Hk').
    repeat split; try assumption. lia. }
  split.
  { intros Hn01. assert (Hk1 : k = 1%nat) by (destruct Hn01; lia).
    destruct new as [|x [|y new']]; simpl in *; [lia | reflexivity | lia]. }
  split.
  { intros Hn3 e1 e2 resp w1 w2 w3 H1 H2 H3.
    assert (Hk3 : k = 3%nat) by lia.
    rewrite Hk3. simpl. rewrite H1, H2, H3. reflexivity. }
  { intros Hn3 e1 e2 e3 w1 w2 w3 H1 H2 H3.
    assert (Hk3 : k = 3%nat) by lia.
    rewrite Hk3. simpl. rewrite H1, H2, H3. reflexivity. }
Qed.

(** A retry count with the top bit set turns negative under [int(...)]:
    the loop body never runs. *)
Lemma Do_retry_count_overflow (r : RequestBuilder) (q : Request) (w : World) :
  err r = None -> req r = Some q ->
  2 ^ (uint_bits - 1) <= retryTimes r < 2 ^ uint_bits ->
  Do r w = Returned (mkDone None None w []).
Proof.
  intros He Hq Hn. rewrite (Do_runs_loop r q w He Hq).
  destruct (attempt_budget (retryTimes r)) as [_ Hbig]; [lia|].
  cbv zeta in Hbig. rewrite Hbig by lia. reflexivity.
Qed.

(** ** Multipart encoding: failure is atomic *)

(** A loop of the encoder stops at the first operation that fails: what
    comes after it in the input has no say in the result. *)
Lemma write_values_abort (key : string) (vs1 : list string) :
  forall (v : string) (vs2 : list string) (w w1 w2 : Writer) (e : error),
    write_values key vs1 w = (w1, None) ->
    Writer_WriteField key v w1 = (w2, Some e) ->
    write_values key (vs1 ++ v :: vs2) w = (w2, Some e).
Proof.
  induction vs1 as [|x vs1 IH]; intros v vs2 w w1 w2 e H1 H2; simpl in *.
  - inversion H1; subst. now rewrite H2.
  - destruct (Writer_WriteField key x w) as [w' [e'|]]; [discriminate|].
    now apply (IH v vs2 w' w1 w2 e).
Qed.

Lemma write_fields_abort (pre : list (string * list string)) :
  forall (key : string) (vs : list string) (post : list (string * list string))
         (w w1 w2 : Writer) (e : error),
    write_fields pre w = (w1, None) ->
    write_values key vs w1 = (w2, Some e) ->
    write_fields (pre ++ (key, vs) :: post) w = (w2, Some e).
Proof.
  induction pre as [|[k x] pre IH]; intros key vs post w w1 w2 e H1 H2; simpl in *.
  - inversion H1; subst. now rewrite H2.
  - destruct (write_values k x w) as [w' [e'|]]; [discriminate|].
    now apply (IH key vs post w' w1 w2 e).
Qed.

Lemma write_files_of_abort (key : string) (fs1 : list FileHeader) :
  forall (f : FileHeader) (fs2 : list FileHeader) (w w1 w2 : Writer) (e : error),
    write_files_of key fs1 w = (w1, None) ->
    write_file key f w1 = (w2, Some e) ->
    write_files_of key (fs1 ++ f :: fs2) w = (w2, Some e).
Proof.
  induction fs1 as [|x fs1 IH]; intros f fs2 w w1 w2 e H1 H2; simpl in *.
  - inversion H1; subst. now rewrite H2.
  - destruct (write_file key x w) as [w' [e'|]]; [discriminate|].
    now apply (IH f fs2 w' w1 w2 e).
Qed.

Lemma write_files_abort (pre : list (string * list FileHeader)) :
  forall (key : string) (fs : list FileHeader) (post : list (string * list FileHeader))
         (w w1 w2 : Writer) (e : error),
    write_files pre w = (w1, None) ->
    write_files_of key fs w1 = (w2, Some e) ->
    write_files (pre ++ (key, fs) :: post) w = (w2, Some e).
Proof.
  induction pre as [|[k x] pre IH]; intros key fs post w w1 w2 e H1 H2; simpl in *.
  - inversion H1; subst. now rewrite H2.
  - destruct (write_files_of k x w) as [w' [e'|]]; [discriminate|].
    now apply (IH key fs post w' w1 w2 e).
Qed.

(** The three ways in which writing one file fails. *)
Lemma write_file_create_fails (key : string) (f : FileHeader) (w w1 : Writer) (e : error) :
  Writer_CreateFormFile key (Filename f) w = (w1, Some e) ->
  write_file key f w = (w1, Some e).
Proof. intros H. unfold write_file. now rewrite H. Qed.

Lemma write_file_open_fails (key : string) (f : FileHeader) (w w1 : Writer) (e : error) :
  Writer_CreateFormFile key (Filename f) w = (w1, None) ->
  FileHeader_Open f = failed e ->
  write_file key f w = (w1, Some e).
Proof. intros H1 H2. unfold write_file. now rewrite H1, H2. Qed.

Lemma write_file_copy_fails (key : string) (f : FileHeader) (fl : File)
  (w w1 w2 : Writer) (e : error) :
  Writer_CreateFormFile key (Filename f) w = (w1, None) ->
  FileHeader_Open f = ok fl ->
  io_Copy fl w1 = (w2, Some e) ->
  write_file key f w = (w2, Some e).
Proof. intros H1 H2 H3. unfold write_file. now rewrite H1, H2. Qed.

(** A read error of the file is a failure of the copy. *)
Lemma io_Copy_read_error (fl : File) (w w1 : Writer) (e : error) :
  part_Write (file_content fl) w = (w1, None) ->
  file_read_error fl = Some e ->
  io_Copy fl w = (w1, Some e).
Proof. intros H1 H2. unfold io_Copy. now rewrite H1, H2. Qed.

(** C5.  On a builder with no sticky error, when the encoding of the form
    fails with an error, in the loop over the fields or, the fields
    written, in the loop over the files, [MultipartForm] returns the
    builder with that error in the error slot and everything else as it
    was: the request, and so its body and its [Content-Type] header, is
    the one from before the call.  The loops fail as soon as one operation
    fails (writing a field, creating a file part, opening a file, copying
    its bytes), with the error of that operation, whatever input comes
    after it. *)
Theorem MultipartForm_failure_is_atomic
  (form : multipart_Form) (r : RequestBuilder) (e : error) :
  err r = None ->
  (forall w : Writer,
     write_fields (range_nilable (Form_Value form)) multipart_NewWriter = (w, Some e) ->
     MultipartForm form r
     = Returned (mkRequestBuilder (retryTimes r) (Some e) (req r) (client r)))
  /\ (forall w1 w2 : Writer,
        write_fields (range_nilable (Form_Value form)) multipart_NewWriter = (w1, None) ->
        write_files (range_nilable (Form_File form)) w1 = (w2, Some e) ->
        MultipartForm form r
        = Returned (mkRequestBuilder (retryTimes r) (Some e) (req r) (client r)))
  /\ (forall (pre post : list (string * list string)) (key v : string)
             (vs1 vs2 : list string) (w w0 w1 w2 : Writer),
        write_fields pre w = (w0, None) ->
        write_values key vs1 w0 = (w1, None) ->
        Writer_WriteField key v w1 = (w2, Some e) ->
        write_fields (pre ++ (key, (vs1 ++ v :: vs2)%list) :: post) w = (w2, Some e))
  /\ (forall (pre post : list (string * list FileHeader)) (key : string)
             (f : FileHeader) (fs1 fs2 : list FileHeader) (w w0 w1 w2 w3 : Writer),
        write_files pre w = (w0, None) ->
        write_files_of key fs1 w0 = (w1, None) ->
        (Writer_CreateFormFile key (Filename f) w1 = (w3, Some e)
         \/ (Writer_CreateFormFile key (Filename f) w1 = (w3, None)
             /\ FileHeader_Open f = failed e)
         \/ (exists fl : File,
               Writer_CreateFormFile key (Filename f) w1 = (w2, None)
               /\ FileHeader_Open f = ok fl
               /\ io_Copy fl w2 = (w3, Some e))) ->
        write_files (pre ++ (key, (fs1 ++ f :: fs2)%list) :: post) w = (w3, Some e)).
Proof.
  intros He. split; [|split; [|split]].
  - intros w H. unfold MultipartForm. rewrite He, H. reflexivity.
  - intros w1 w2 H1 H2. unfold MultipartForm. rewrite He, H1, H2. reflexivity.
  - intros pre post key v vs1 vs2 w w0 w1 w2 H0 H1 H2.
    apply (write_fields_abort pre key _ post w w0 w2 e H0).
    now apply (write_values_abort key vs1 v vs2 w0 w1 w2 e).
  - intros pre post key f fs1 fs2 w w0 w1 w2 w3 H0 H1 H2.
    apply (write_files_abort pre key _ post w w0 w3 e H0).
    apply (write_files_of_abort key fs1 f fs2 w0 w1 w3 e H1).
    destruct H2 as [H2|[[H2 H3]|(fl & H2 & H3 & H4)]].
    + now apply write_file_create_fails.
    + now apply write_file_open_fails.
    + now apply (write_file_copy_fails key f fl w1 w2 w3 e).
Qed.

(** When nothing fails, [MultipartForm] sets the [Content-Type] header and
    the body; the body is the writer's buffer, which the deferred
    [Close] has by then written to once more. *)
Lemma MultipartForm_writes (form : multipart_Form) (r : RequestBuilder) (q : Request)
  (w1 w2 w3 : Writer) :
  err r = None -> req r = Some q ->
  write_fields (range_nilable (Form_Value form)) multipart_NewWriter = (w1, None) ->
  write_files (range_nilable (Form_File form)) w1 = (w2, None) ->
  Writer_Close w2 = (w3, None) ->
  MultipartForm form r
  = Returned (set_req (Some
      (set_body (Some (io_NopCloser (bytes_Buffer (Writer_buffer (fst (Writer_Close w3))))))
         (set_header (Header_Set "Content-Type" (Writer_FormDataContentType w2) (header q)) q)))
      r).
Proof.
  intros He Hq H1 H2 H3. destruct r as [n e0 q0 c]; simpl in He, Hq; subst.
  unfold MultipartForm. cbn [err]. rewrite H1, H2, H3. reflexivity.
Qed.

(** ** The builders in reach *)

Lemma update_req_returns (f : Request -> Request) (r r' : RequestBuilder) :
  update_req f r = Returned r' ->
  exists q : Request, req r' = Some q /\ err r' = err r /\ retryTimes r' = retryTimes r.
Proof.
  unfold update_req. destruct (req r) as [q|]; [|discriminate].
  intros H. inversion H; subst. now exists (f q).
Qed.

Lemma configures_has_request (r r' : RequestBuilder) :
  configures r r' -> has_request r -> has_request r'.
Proof.
  intros Hstep Hr Herr'. destruct Hstep as
    [m r r' H|b r r' H|k v r r' H|values r r' H|queries r r' H|k v r r' H
    |v r r' H|values r r' H|f r r' H|n r r' H].
  - apply update_req_returns in H. destruct H as (q & Hq & _). eauto.
  - apply update_req_returns in H. destruct H as (q & Hq & _). eauto.
  - unfold SetHeader in H. destruct (err r) eqn:He.
    + inversion H; subst. congruence.
    + apply update_req_returns in H. destruct H as (q & Hq & _). eauto.
  - unfold Form in H. destruct (err r) eqn:He.
    + inversion H; subst. congruence.
    + apply update_req_returns in H. destruct H as (q & Hq & _). eauto.
  - unfold Query in H. destruct (err r) eqn:He.
    + inversion H; subst. congruence.
    + apply update_req_returns in H. destruct H as (q & Hq & _). eauto.
  - unfold AddQuery, Query in H. destruct (err r) eqn:He.
    + inversion H; subst. congruence.
    + apply update_req_returns in H. destruct H as (q & Hq & _). eauto.
  - unfold Json in H. destruct (err r) eqn:He.
    + inversion H; subst. congruence.
    + destruct (json_Marshal v).
      * destruct (SetHeader "Content-Type" "application/json" r); [|discriminate].
        simpl in H. apply update_req_returns in H. destruct H as (q & Hq & _). eauto.
      * inversion H; subst. discriminate.
  - unfold PostForm in H. destruct (err r) eqn:He.
    + inversion H; subst. congruence.
    + destruct (SetHeader "Content-Type" "application/x-www-form-urlencoded" r); [|discriminate].
      simpl in H. apply update_req_returns in H. destruct H as (q & Hq & _). eauto.
  - unfold MultipartForm in H. destruct (err r) eqn:He.
    + inversion H; subst. congruence.
    + destruct (write_fields _ _) as [w1 [e1|]]; [inversion H; subst; discriminate|].
      destruct (write_files _ _) as [w2 [e2|]]; [inversion H; subst; discriminate|].
      destruct (Writer_Close w2) as [w3 [e3|]]; [inversion H; subst; discriminate|].
      destruct (SetHeader "Content-Type" _ r); [|discriminate].
      simpl in H. apply update_req_returns in H. destruct H as (q & Hq & _). eauto.
  - inversion H; subst. apply Hr. exact Herr'.
Qed.

Lemma reachable_has_request (r : RequestBuilder) : reachable r -> has_request r.
Proof.
  induction 1 as [u|r r' _ IH Hstep].
  - unfold has_request, New. destruct (http_NewRequest_GET u); simpl; [eauto|discriminate].
  - now apply (configures_has_request r r').
Qed.


(** ** The loop of [Query] does not depend on the iteration order *)

Lemma fold_Values_Add (l : list (string * string)) :
  forall acc : Values,
    NoDup (l.*1) ->
    (forall k : string, k ∈ l.*1 -> acc !! k = None) ->
    fold_left (fun query kv => Values_Add (fst kv) (snd kv) query) l acc
    = list_to_map (prod_map id (fun v => [v]) <$> l) ∪ acc.
Proof.
  induction l as [|[k v] l IH]; intros acc Hnd Hfresh.
  - simpl. now rewrite (left_id_L ∅ (∪)).
  - simpl in *. apply NoDup_cons in Hnd as [Hk Hnd].
    unfold Values_Add at 2. simpl. rewrite (Hfresh k) by (left). simpl.
    rewrite IH; [|exact Hnd|].
    + rewrite <- insert_union_l. symmetry. apply insert_union_r.
      apply not_elem_of_list_to_map_1. rewrite <- list_fmap_compose.
      exact Hk.
    + intros k' Hk'. rewrite lookup_insert_ne; [apply Hfresh; now right|].
      intros ->. contradiction.
Qed.

Lemma collect_queries_fmap (queries : gmap string string) :
  collect_queries queries = (fun v => [v]) <$> queries.
Proof.
  unfold collect_queries.
  assert (Hnd : NoDup ((range string queries).*1)).
  { rewrite range_perm. apply NoDup_fst_map_to_list. }
  rewrite fold_Values_Add; [|exact Hnd|intros; apply lookup_empty].
  rewrite (right_id_L ∅ (∪)).
  rewrite (list_to_map_proper _ (prod_map id (fun v => [v]) <$> map_to_list queries)).
  - rewrite <- map_to_list_fmap. apply list_to_map_to_list.
  - rewrite <- list_fmap_compose. exact Hnd.
  - now rewrite range_perm.
Qed.

(** The first error stays: no configuration call that returns, guarded or
    not, changes an error slot that is set. *)
Lemma configures_keeps_error (r r' : RequestBuilder) (e : error) :
  configures r r' -> err r = Some e -> err r' = Some e.
Proof.
  intros Hstep He. destruct Hstep as
    [m r r' H|b r r' H|k v r r' H|values r r' H|queries r r' H|k v r r' H
    |v r r' H|values r r' H|f r r' H|n r r' H].
  - apply update_req_returns in H. destruct H as (_ & _ & H & _). congruence.
  - apply update_req_returns in H. destruct H as (_ & _ & H & _). congruence.
  - rewrite (SetHeader_sticky _ _ _ _ He) in H. congruence.
  - rewrite (Form_sticky _ _ _ He) in H. congruence.
  - rewrite (Query_sticky _ _ _ He) in H. congruence.
  - rewrite (AddQuery_sticky _ _ _ _ He) in H. congruence.
  - rewrite (Json_sticky _ _ _ He) in H. congruence.
  - rewrite (PostForm_sticky _ _ _ He) in H. congruence.
  - rewrite (MultipartForm_sticky _ _ _ He) in H. congruence.
  - inversion H; subst. exact He.
Qed.

(** * Further properties *)

(** ** The error slot along chains of calls *)

(** X1.  Once the error slot is set, no chain of configuration calls,
    guarded or not, changes it, and after the chain [Build],
    [BuildWithContext] and [Do] return that first error, [Do] without
    calling the transport. *)
Theorem first_error_is_latched (r r' : RequestBuilder) (e : error) :
  configured r r' -> err r = Some e ->
  err r' = Some e
  /\ Build r' = Returned (None, Some e)
  /\ (forall c : Context, BuildWithContext c r' = Returned (None, Some e))
  /\ (forall w : World, Do r' w = Returned (mkDone None (Some e) w [])).
Proof.
  intros Hchain He.
  assert (He' : err r' = Some e).
  { induction Hchain as [r|r r' r'' _ IH Hstep]; [exact He|].
    apply (configures_keeps_error r' r'' e Hstep). now apply IH. }
  split; [exact He'|]. split; [now apply BuildWithContext_sticky|].
  split; [intros c; now apply BuildWithContext_sticky|].
  intros w. now apply Do_sticky.
Qed.

Lemma configures_guarded_sticky (r r' : RequestBuilder) (e : error) :
  configures_guarded r r' -> err r = Some e -> r' = r.
Proof.
  intros Hstep He. destruct Hstep as
    [k v r r' H|values r r' H|queries r r' H|k v r r' H
    |v r r' H|values r r' H|f r r' H].
  - rewrite (SetHeader_sticky _ _ _ _ He) in H. congruence.
  - rewrite (Form_sticky _ _ _ He) in H. congruence.
  - rewrite (Query_sticky _ _ _ He) in H. congruence.
  - rewrite (AddQuery_sticky _ _ _ _ He) in H. congruence.
  - rewrite (Json_sticky _ _ _ He) in H. congruence.
  - rewrite (PostForm_sticky _ _ _ He) in H. congruence.
  - rewrite (MultipartForm_sticky _ _ _ He) in H. congruence.
Qed.

(** X2.  Once the error slot is set, a chain of calls of the guarded
    setters ([SetHeader], [Form], [Query], [AddQuery], [Json], [PostForm],
    [MultipartForm]) leaves the whole builder as it was, and none of them
    panics, request or no request. *)
Theorem guarded_calls_are_inert_after_error (r : RequestBuilder) (e : error) :
  err r = Some e ->
  (forall r' : RequestBuilder, configured_guarded r r' -> r' = r)
  /\ (forall k v : string, SetHeader k v r = Returned r)
  /\ (forall values : Values, Form values r = Returned r)
  /\ (forall queries : gmap string string, Query queries r = Returned r)
  /\ (forall k v : string, AddQuery k v r = Returned r)
  /\ (forall v : Value, Json v r = Returned r)
  /\ (forall values : Values, PostForm values r = Returned r)
  /\ (forall f : multipart_Form, MultipartForm f r = Returned r).
Proof.
  intros He. split.
  - intros r' Hchain. induction Hchain as [r|r r' r'' _ IH Hstep]; [reflexivity|].
    specialize (IH He). subst r'. now apply (configures_guarded_sticky r r'' e).
  - repeat split; intros.
    + now apply (SetHeader_sticky _ _ _ e).
    + now apply (Form_sticky _ _ e).
    + now apply (Query_sticky _ _ e).
    + now apply (AddQuery_sticky _ _ _ e).
    + now apply (Json_sticky _ _ e).
    + now apply (PostForm_sticky _ _ e).
    + now apply (MultipartForm_sticky _ _ e).
Qed.

(** ** Builders in reach never lack a request they need *)

(** X3.  A builder made by [New] and configured by calls that returned
    either carries an error or holds a request.  On such a builder [Build]
    and [Do] never panic, and [Build] returns either the error alone or
    the pending request alone, never neither.  [BuildWithContext] returns
    for every context that is not nil; handed a nil context it returns the
    error when one is set and otherwise panics with [nil context]. *)
Theorem terminal_operations_on_reachable (r : RequestBuilder) :
  reachable r ->
  (err r = None -> exists q : Request, req r = Some q)
  /\ ((exists e : error, err r = Some e /\ Build r = Returned (None, Some e))
      \/ (exists q : Request, req r = Some q /\ Build r = Returned (Some (pending q), None)))
  /\ (forall c : Context, exists res, BuildWithContext_nilable (Some c) r = Returned res)
  /\ (forall e : error, err r = Some e ->
        BuildWithContext_nilable None r = Returned (None, Some e))
  /\ (err r = None -> BuildWithContext_nilable None r = Panicked nil_context)
  /\ (forall (c : option Context) (p : panic),
        BuildWithContext_nilable c r = Panicked p ->
        c = None /\ err r = None /\ p = nil_context)
  /\ (forall w : World, exists d : Do_result, Do r w = Returned d).
Proof.
  intros Hreach. pose proof (reachable_has_request r Hreach) as Hinv.
  unfold has_request in Hinv. split; [exact Hinv|].
  assert (Hctx : forall c : Context, exists res, BuildWithContext c r = Returned res).
  { intros c. unfold BuildWithContext. destruct (err r) as [e|] eqn:He; [eauto|].
    destruct (Hinv eq_refl) as [q Hq]. rewrite Hq.
    destruct (is_Background c); eexists; reflexivity. }
  split.
  { destruct (err r) as [e|] eqn:He.
    - left. exists e. split; [reflexivity|apply (BuildWithContext_sticky _ r e He)].
    - destruct (Hinv eq_refl) as [q Hq]. right. exists q. split; [exact Hq|].
      unfold Build, BuildWithContext. now rewrite He, Hq. }
  split; [exact Hctx|].
  split; [intros e He; simpl; now rewrite He|].
  split; [intros He; simpl; now rewrite He|].
  split.
  { intros [c|] p Hp; simpl in Hp.
    - destruct (Hctx c) as [res Hres]. congruence.
    - destruct (err r); [discriminate|]. inversion Hp. repeat split. }
  intros w. destruct (err r) as [e|] eqn:He.
  - eexists. apply (Do_sticky r w e He).
  - destruct (Hinv eq_refl) as [q Hq]. eexists.
    unfold Do, Build, BuildWithContext. rewrite He, Hq. reflexivity.
Qed.



Lemma write_files_of_nilable_present (key : string) (fs : list FileHeader) :
  forall w : Writer,
    write_files_of_nilable key (Some <$> fs) w = Returned (write_files_of key fs w).
Proof.
  induction fs as [|f fs IH]; intros w; simpl; [reflexivity|].
  destruct (write_file key f w) as [w' [e|]]; [reflexivity|apply IH].
Qed.




Lemma range_singleton (A : Type) (k : string) (x : A) : range A {[k := x]} = [(k, x)].
Proof. apply Permutation_singleton_r. rewrite range_perm. now rewrite map_to_list_singleton. Qed.


(** With no file header [nil], the two embeddings of [MultipartForm] agree
    on a form with no files and on a form with files under one key. *)
Lemma MultipartForm_nilable_agrees
  (value : option (gmap string (list string))) (r : RequestBuilder) :
  MultipartForm_nilable (Some (mkNilableForm value None)) r
  = MultipartForm (mkForm value None) r
  /\ (forall (key : string) (fs : list FileHeader),
        MultipartForm_nilable (Some (mkNilableForm value (Some {[key := Some <$> fs]}))) r
        = MultipartForm (mkForm value (Some {[key := fs]})) r).
Proof.
  split.
  - unfold MultipartForm_nilable, MultipartForm. simpl.
    destruct (err r); [reflexivity|].
    destruct (write_fields _ _) as [w1 [e1|]]; reflexivity.
  - intros key fs. unfold MultipartForm_nilable, MultipartForm. simpl.
    destruct (err r); [reflexivity|].
    destruct (write_fields _ _) as [w1 [e1|]]; [reflexivity|].
    rewrite !range_singleton. simpl. rewrite write_files_of_nilable_present. simpl.
    destruct (write_files_of key fs w1) as [w2 [e2|]]; reflexivity.
Qed.


(** ** Headers *)

(** X5.  On a builder with no error and a request, [SetHeader(k, v)] is an
    overwrite under the canonical header name: afterwards a lookup under
    [k], or under any name with the same canonical form, gives [v] alone;
    headers with another canonical name are as they were; nothing but the
    headers changes; and a second [SetHeader] under a name with the same
    canonical form makes the first one unobservable. *)
Theorem SetHeader_overwrites (k v : string) (r : RequestBuilder) (q : Request) :
  err r = None -> req r = Some q ->
  exists q' : Request,
    SetHeader k v r = Returned (mkRequestBuilder (retryTimes r) None (Some q') (client r))
    /\ (forall k' : string,
          CanonicalMIMEHeaderKey k' = CanonicalMIMEHeaderKey k ->
          Header_Get k' (header q') = v
          /\ header q' !! CanonicalMIMEHeaderKey k' = Some [v])
    /\ (forall k' : string,
          CanonicalMIMEHeaderKey k' <> CanonicalMIMEHeaderKey k ->
          Header_Get k' (header q') = Header_Get k' (header q)
          /\ header q' !! CanonicalMIMEHeaderKey k' = header q !! CanonicalMIMEHeaderKey k')
    /\ set_header (header q) q' = q
    /\ (forall k2 v2 : string,
          CanonicalMIMEHeaderKey k2 = CanonicalMIMEHeaderKey k ->
          (r1 <- SetHeader k v r ;;; SetHeader k2 v2 r1) = SetHeader k2 v2 r).
Proof.
  intros He Hq. destruct r as [n e0 q0 c]; simpl in He, Hq; subst.
  exists (set_header (Header_Set k v (header q)) q).
  split; [reflexivity|]. split; [|split; [|split]].
  - intros k' Hk. unfold Header_Get, Header_Set. simpl. rewrite Hk.
    now rewrite lookup_insert_eq.
  - intros k' Hk. unfold Header_Get, Header_Set. simpl.
    rewrite lookup_insert_ne by congruence. split; reflexivity.
  - destruct q; reflexivity.
  - intros k2 v2 Hk. unfold SetHeader, update_req. simpl. unfold set_req. simpl.
    do 3 f_equal. unfold set_header, Header_Set. simpl. f_equal.
    rewrite Hk. apply insert_insert_eq.
Qed.

(** ** Body conveniences *)

Lemma canonical_Content_Type : CanonicalMIMEHeaderKey "Content-Type" = "Content-Type".
Proof. reflexivity. Qed.

(** X6.  On a builder with no error and a request, [PostForm(values)] sets
    the header [Content-Type] to [application/x-www-form-urlencoded], sets
    the body to a string reader over the URL encoding of [values], and
    changes nothing else; with no values the body is the empty string. *)
Theorem PostForm_spec (values : Values) (r : RequestBuilder) (q : Request) :
  err r = None -> req r = Some q ->
  exists q' : Request,
    PostForm values r = Returned (mkRequestBuilder (retryTimes r) None (Some q') (client r))
    /\ Header_Get "Content-Type" (header q') = "application/x-www-form-urlencoded"
    /\ header q' = <["Content-Type" := ["application/x-www-form-urlencoded"]]> (header q)
    /\ body q' = Some (io_NopCloser (strings_Reader (Values_Encode values)))
    /\ set_body (body q) (set_header (header q) q') = q
    /\ (values = ∅ -> body q' = Some (io_NopCloser (strings_Reader EmptyString))).
Proof.
  intros He Hq. destruct r as [n e0 q0 c]; simpl in He, Hq; subst.
  exists (set_body (Some (io_NopCloser (strings_Reader (Values_Encode values))))
            (set_header (Header_Set "Content-Type" "application/x-www-form-urlencoded"
                                    (header q)) q)).
  split; [reflexivity|]. split; [apply Header_Get_Set|]. split; [reflexivity|].
  split; [reflexivity|]. split; [destruct q; reflexivity|].
  intros ->. simpl. unfold Values_Encode. now rewrite map_to_list_empty.
Qed.

(** X7.  The body conveniences replace one another: on a builder with no
    error and a request, [PostForm] followed by a [Json] that serialises
    leaves exactly what that [Json] alone leaves, and [Json] followed by
    [PostForm] exactly what [PostForm] alone leaves.  A raw [Body] after
    [Json] replaces the body but keeps the [application/json] header. *)
Theorem body_conveniences_replace_each_other
  (values : Values) (v : Value) (data : list byte) (r : RequestBuilder) (q : Request) :
  err r = None -> req r = Some q -> json_Marshal v = ok data ->
  (r1 <- PostForm values r ;;; Json v r1) = Json v r
  /\ (r1 <- Json v r ;;; PostForm values r1) = PostForm values r
  /\ (forall b : ReadCloser,
        exists q' : Request,
          (r1 <- Json v r ;;; Body b r1)
          = Returned (mkRequestBuilder (retryTimes r) None (Some q') (client r))
          /\ body q' = Some b
          /\ Header_Get "Content-Type" (header q') = "application/json").
Proof.
  intros He Hq Hm. destruct r as [n e0 q0 c]; simpl in He, Hq; subst.
  split; [|split].
  - unfold PostForm, Json, SetHeader, Body, update_req. simpl. rewrite Hm. simpl.
    unfold set_req. simpl. do 3 f_equal. unfold set_body, set_header, Header_Set. simpl.
    f_equal. apply insert_insert_eq.
  - unfold PostForm, Json, SetHeader, Body, update_req. simpl. rewrite Hm. simpl.
    unfold set_req. simpl. do 3 f_equal. unfold set_body, set_header, Header_Set. simpl.
    f_equal. apply insert_insert_eq.
  - intros b. unfold Json, SetHeader, Body, update_req. simpl. rewrite Hm. simpl.
    eexists. split; [reflexivity|]. split; [reflexivity|]. apply Header_Get_Set.
Qed.

(** ** Overwriting setters *)

(** X8.  [Method], [Body], [Form] and [Retry] keep no history: on a
    builder with a request (and, for [Form], no error) a second call
    leaves exactly what it would have left alone; and [Retry] neither
    looks at the error slot nor touches anything but the retry count. *)
Theorem last_call_wins (r : RequestBuilder) (q : Request) :
  req r = Some q ->
  (forall m1 m2 : string, (r1 <- Method m1 r ;;; Method m2 r1) = Method m2 r)
  /\ (forall b1 b2 : ReadCloser, (r1 <- Body b1 r ;;; Body b2 r1) = Body b2 r)
  /\ (err r = None ->
      forall f1 f2 : Values, (r1 <- Form f1 r ;;; Form f2 r1) = Form f2 r)
  /\ (forall n1 n2 : Z, (r1 <- Retry n1 r ;;; Retry n2 r1) = Retry n2 r)
  /\ (forall n : Z,
        Retry n r = Returned (mkRequestBuilder n (err r) (req r) (client r))).
Proof.
  intros Hq. destruct r as [n e0 q0 c]; simpl in Hq; subst.
  split; [|split; [|split; [|split]]]; try reflexivity.
  intros He. simpl in He. subst. reflexivity.
Qed.

(** ** Multipart forms: the end of the encoding *)

(** X9.  On a builder with no error and a request, once the fields and the
    files are written: if the final [Close] of the writer fails, its error
    goes to the error slot and the request is left as it was; if it
    succeeds, the header [Content-Type] is the writer's form-data content
    type as read before that [Close], nothing but header and body changes,
    and the body is the writer's buffer as the deferred second [Close]
    leaves it. *)
Theorem MultipartForm_finishes
  (form : multipart_Form) (r : RequestBuilder) (q : Request) (w1 w2 : Writer) :
  err r = None -> req r = Some q ->
  write_fields (range_nilable (Form_Value form)) multipart_NewWriter = (w1, None) ->
  write_files (range_nilable (Form_File form)) w1 = (w2, None) ->
  (forall (w3 : Writer) (e : error),
     Writer_Close w2 = (w3, Some e) ->
     MultipartForm form r
     = Returned (mkRequestBuilder (retryTimes r) (Some e) (Some q) (client r)))
  /\ (forall w3 : Writer,
        Writer_Close w2 = (w3, None) ->
        exists q' : Request,
          MultipartForm form r
          = Returned (mkRequestBuilder (retryTimes r) None (Some q') (client r))
          /\ Header_Get "Content-Type" (header q') = Writer_FormDataContentType w2
          /\ body q' = Some (io_NopCloser (bytes_Buffer
                                (Writer_buffer (fst (Writer_Close w3)))))
          /\ set_body (body q) (set_header (header q) q') = q).
Proof.
  intros He Hq H1 H2. destruct r as [n e0 q0 c]; simpl in He, Hq; subst.
  split.
  - intros w3 e H3. unfold MultipartForm. cbn [err]. rewrite H1, H2, H3. reflexivity.
  - intros w3 H3.
    exists (set_body (Some (io_NopCloser (bytes_Buffer (Writer_buffer (fst (Writer_Close w3))))))
              (set_header (Header_Set "Content-Type" (Writer_FormDataContentType w2)
                                      (header q)) q)).
    split; [unfold MultipartForm; cbn [err]; rewrite H1, H2, H3; reflexivity|].
    split; [apply Header_Get_Set|]. split; [reflexivity|]. destruct q; reflexivity.
Qed.

Lemma range_empty (A : Type) : range A ∅ = [].
Proof. apply Permutation_nil_r. rewrite range_perm. now rewrite map_to_list_empty. Qed.

(** X10.  A form without fields and files, its maps [nil] or empty alike,
    has nothing written but what the two [Close] calls write: on a builder
    with no error and a request, the body is the buffer of the fresh writer
    closed twice. *)
Theorem MultipartForm_of_empty_form
  (form : multipart_Form) (r : RequestBuilder) (q : Request) (w3 : Writer) :
  err r = None -> req r = Some q ->
  (Form_Value form = None \/ Form_Value form = Some ∅) ->
  (Form_File form = None \/ Form_File form = Some ∅) ->
  Writer_Close multipart_NewWriter = (w3, None) ->
  MultipartForm form r
  = Returned (set_req (Some
      (set_body (Some (io_NopCloser (bytes_Buffer (Writer_buffer (fst (Writer_Close w3))))))
         (set_header (Header_Set "Content-Type"
                        (Writer_FormDataContentType multipart_NewWriter) (header q)) q)))
      r).
Proof.
  intros He Hq Hv Hf H3.
  assert (Hv' : range_nilable (Form_Value form) = []).
  { destruct Hv as [-> | ->]; [reflexivity | apply range_empty]. }
  assert (Hf' : range_nilable (Form_File form) = []).
  { destruct Hf as [-> | ->]; [reflexivity | apply range_empty]. }
  apply (MultipartForm_writes form r q multipart_NewWriter multipart_NewWriter w3 He Hq).
  - now rewrite Hv'.
  - now rewrite Hf'.
  - exact H3.
Qed.

(** ** Query strings: edge cases *)

Lemma Values_Encode_empty : Values_Encode ∅ = EmptyString.
Proof. unfold Values_Encode. now rewrite map_to_list_empty. Qed.

(** X11.  [Query] with an empty map changes nothing at all on a builder
    with no error and a request; and [AddQuery(k, v)] is [Query] with the
    one-entry map, on every builder. *)
Theorem Query_of_empty_map (r : RequestBuilder) (q : Request) :
  err r = None -> req r = Some q ->
  Query ∅ r = Returned r
  /\ (forall (k v : string) (r0 : RequestBuilder),
        AddQuery k v r0 = Query {[k := v]} r0).
Proof.
  intros He Hq. split.
  - rewrite (Query_writes ∅ r q He Hq). unfold collect_queries. rewrite range_empty.
    simpl. rewrite Values_Encode_empty, string_app_nil_r.
    destruct r as [n e0 q0 c]; simpl in He, Hq; subst.
    unfold set_req. simpl. do 3 f_equal. destruct q as [a [] b c0 d e f g]; reflexivity.
  - intros k v r0. unfold AddQuery, Query. destruct (err r0); reflexivity.
Qed.

Lemma string_app_not_empty (a b : string) :
  String.eqb (a ++ "=" ++ b) EmptyString = false.
Proof. destruct a; reflexivity. Qed.

Lemma slices_Sort_pair (k1 k2 : string) (l : list string) :
  String.leb k1 k2 = true -> k1 <> k2 -> l ≡ₚ [k1; k2] -> slices_Sort l = [k1; k2].
Proof.
  intros Hle Hne Hperm.
  assert (Hge : String.leb k2 k1 = false).
  { destruct (String.leb k2 k1) eqn:H; [|reflexivity].
    exfalso. apply Hne. now apply String.leb_antisym. }
  symmetry in Hperm. apply Permutation_length_2_inv in Hperm as [-> | ->]; simpl.
  - now rewrite Hle.
  - now rewrite Hge.
Qed.

(** X12.  Within one [Query] call the entries are sorted by key and joined
    by [&]: for two distinct keys, [k1] the smaller one in byte order, the
    call appends [k1=v1&k2=v2] (each part escaped), whatever the order in
    which the map is visited. *)
Theorem Query_two_keys (k1 v1 k2 v2 : string) (r : RequestBuilder) (q : Request) :
  err r = None -> req r = Some q ->
  String.leb k1 k2 = true -> k1 <> k2 ->
  Query {[k1 := v1; k2 := v2]} r
  = Returned (set_req (Some (set_RawQuery
      (RawQuery (url q)
       ++ (QueryEscape k1 ++ "=" ++ QueryEscape v1) ++ "&"
       ++ (QueryEscape k2 ++ "=" ++ QueryEscape v2)) q)) r).
Proof.
  intros He Hq Hle Hne. rewrite (Query_writes _ r q He Hq). do 4 f_equal.
  rewrite collect_queries_fmap, fmap_insert, map_fmap_singleton.
  unfold Values_Encode.
  rewrite (slices_Sort_pair k1 k2).
  - simpl. rewrite lookup_insert_eq. simpl.
    rewrite lookup_insert_ne by exact Hne. rewrite lookup_singleton_eq. simpl.
    change (EmptyString ++ QueryEscape k1 ++ "=" ++ QueryEscape v1)
      with (QueryEscape k1 ++ "=" ++ QueryEscape v1).
    rewrite string_app_not_empty. now rewrite !string_app_assoc.
  - exact Hle.
  - exact Hne.
  - rewrite map_to_list_insert by (now apply lookup_singleton_ne).
    now rewrite map_to_list_singleton.
Qed.

(** ** The retry loop: edges *)

(** X13.  A retry count with the top bit set, [2^63] or more, is negative
    as an [int]: after [Retry(n)] on a builder with no error and a
    request, [Do] makes no call of the transport and returns neither a
    response nor an error, leaving the world as it was. *)
Theorem Do_after_Retry_overflow (n : Z) (r : RequestBuilder) (q : Request) (w : World) :
  err r = None -> req r = Some q ->
  2 ^ (uint_bits - 1) <= n < 2 ^ uint_bits ->
  (r1 <- Retry n r ;;; Do r1 w) = Returned (mkDone None None w []).
Proof.
  intros He Hq Hn. unfold Retry. cbn [bind].
  apply (Do_retry_count_overflow (set_retryTimes n r) q w); assumption.
Qed.

(** X14.  Only an error of the transport is retried: when the first call
    answers, with whatever status code, [Do] returns that response after
    this one call, for every retry count that fits an [int]; and when the
    first call fails and the retry count is 0 or 1, its error is returned
    after this one call. *)
Theorem Do_first_call (r : RequestBuilder) (q : Request) (w w' : World) :
  err r = None -> req r = Some q ->
  0 <= retryTimes r < 2 ^ (uint_bits - 1) ->
  (forall resp : Response,
     Client_Do (default http_DefaultClient (client r)) q w = (ok resp, w') ->
     Do r w = Returned (mkDone (Some resp) None w' [ok resp]))
  /\ (forall e : error,
        Client_Do (default http_DefaultClient (client r)) q w = (failed e, w') ->
        retryTimes r = 0 \/ retryTimes r = 1 ->
        Do r w = Returned (mkDone None (Some e) w' [failed e])).
Proof.
  intros He Hq Hn. rewrite (Do_runs_loop r q w He Hq).
  destruct (attempt_budget (retryTimes r)) as [Hsmall _].
  { change (2 ^ uint_bits) with 18446744073709551616.
    change (2 ^ (uint_bits - 1)) with 9223372036854775808 in Hn. lia. }
  cbv zeta in Hsmall. specialize (Hsmall (proj2 Hn)).
  set (k := Z.to_nat (int_of_uint (if retryTimes r =? 0 then 1 else retryTimes r))) in *.
  split.
  - intros resp Hcall. destruct k as [|k]; [lia|]. simpl. now rewrite Hcall.
  - intros e Hcall H01. assert (Hk : k = 1%nat) by (destruct H01; lia).
    rewrite Hk. simpl. now rewrite Hcall.
Qed.

(** ** The client *)

Lemma update_req_keeps_client (f : Request -> Request) (r r' : RequestBuilder) :
  update_req f r = Returned r' -> client r' = client r.
Proof.
  unfold update_req. destruct (req r); [|discriminate].
  intros H. inversion H. reflexivity.
Qed.

Lemma SetHeader_keeps_client (k v : string) (r r' : RequestBuilder) :
  SetHeader k v r = Returned r' -> client r' = client r.
Proof.
  unfold SetHeader. destruct (err r).
  - intros H. inversion H. reflexivity.
  - apply update_req_keeps_client.
Qed.

Lemma configures_keeps_client (r r' : RequestBuilder) :
  configures r r' -> client r' = client r.
Proof.
  intros Hstep. destruct Hstep as
    [m r r' H|b r r' H|k v r r' H|values r r' H|queries r r' H|k v r r' H
    |v r r' H|values r r' H|f r r' H|n r r' H].
  - now apply update_req_keeps_client in H.
  - now apply update_req_keeps_client in H.
  - now apply SetHeader_keeps_client in H.
  - unfold Form in H. destruct (err r); [now inversion H|].
    now apply update_req_keeps_client in H.
  - unfold Query in H. destruct (err r); [now inversion H|].
    now apply update_req_keeps_client in H.
  - unfold AddQuery, Query in H. destruct (err r); [now inversion H|].
    now apply update_req_keeps_client in H.
  - unfold Json in H. destruct (err r); [now inversion H|].
    destruct (json_Marshal v); [|now inversion H].
    destruct (SetHeader _ _ r) as [r1|] eqn:H1; [|discriminate]. simpl in H.
    apply update_req_keeps_client in H. apply SetHeader_keeps_client in H1. congruence.
  - unfold PostForm in H. destruct (err r); [now inversion H|].
    destruct (SetHeader _ _ r) as [r1|] eqn:H1; [|discriminate]. simpl in H.
    apply update_req_keeps_client in H. apply SetHeader_keeps_client in H1. congruence.
  - unfold MultipartForm in H. destruct (err r); [now inversion H|].
    destruct (write_fields _ _) as [w1 [e1|]]; [now inversion H|].
    destruct (write_files _ _) as [w2 [e2|]]; [now inversion H|].
    destruct (Writer_Close w2) as [w3 [e3|]]; [now inversion H|].
    destruct (SetHeader _ _ r) as [r1|] eqn:H1; [|discriminate]. simpl in H.
    apply update_req_keeps_client in H. apply SetHeader_keeps_client in H1. congruence.
  - now inversion H.
Qed.

(** X15.  No operation of the package sets the builder's client: on every
    builder made by [New] and configured by calls that returned, the
    client is [nil], so [Do] sends through [http.DefaultClient] and gives
    what it gives on the same builder with the default client put in. *)
Theorem reachable_sends_through_default_client (r : RequestBuilder) :
  reachable r ->
  client r = None
  /\ (forall w : World,
        Do r w
        = Do (mkRequestBuilder (retryTimes r) (err r) (req r) (Some http_DefaultClient)) w).
Proof.
  intros Hreach.
  assert (Hc : client r = None).
  { induction Hreach as [u|r r' _ IH Hstep].
    - unfold New. destruct (http_NewRequest_GET u); reflexivity.
    - rewrite (configures_keeps_client r r' Hstep). exact IH. }
  split; [exact Hc|]. intros w.
  destruct r as [n e0 q0 c]; simpl in Hc; subst. reflexivity.
Qed.

End Httpx.

(** * The test suite and the properties on concrete inputs *)

Lemma example_range_perm (A : Type) (m : gmap string A) :
  example_range A m ≡ₚ map_to_list m.
Proof. reflexivity. Defined.

(** [New("http://localhost")] *)
Example New_localhost :
  New example_url_Parse "http://localhost" = mkRequestBuilder 0 None (Some localhost) None.
Proof. reflexivity. Qed.

(** [TestRequestBuilder_Method] *)
Example test_Method :
  (r <- Method "POST" (New example_url_Parse "http://localhost") ;;; Build r)
  = Returned (Some (pending (set_Method "POST" localhost)), None).
Proof. reflexivity. Qed.

(** [TestRequestBuilder_SetHeader] *)
Example test_SetHeader :
  exists r q,
    SetHeader "content-type" "application/json" (New example_url_Parse "http://localhost")
    = Returned r
    /\ Build r = Returned (Some (pending q), None)
    /\ Header_Get "Content-Type" (header q) = "application/json".
Proof. eexists. eexists. split; [reflexivity|]. split; [reflexivity|]. vm_compute. reflexivity. Qed.

(** [TestRequestBuilder_Query] *)
Example test_Query :
  exists r q,
    Query example_range {["key" := "value"]} (New example_url_Parse "http://localhost")
    = Returned r
    /\ Build r = Returned (Some (pending q), None)
    /\ RawQuery (url q) = "key=value".
Proof. eexists. eexists. split; [reflexivity|]. split; [reflexivity|]. vm_compute. reflexivity. Qed.

(** Two keys: [Values.Encode] sorts them and separates them by [&]. *)
Example test_Query_two_keys :
  Values_Encode (collect_queries example_range {["b" := "2"; "a" := "1 &"]}) = "a=1+%26&b=2".
Proof. vm_compute. reflexivity. Qed.

(** [TestRequestBuilder_PostForm] *)
Example test_PostForm :
  exists r q,
    PostForm {["key" := ["value"]]} (New example_url_Parse "http://localhost") = Returned r
    /\ Build r = Returned (Some (pending q), None)
    /\ Header_Get "Content-Type" (header q) = "application/x-www-form-urlencoded"
    /\ body q = Some (io_NopCloser (strings_Reader "key=value")).
Proof.
  eexists. eexists. split; [reflexivity|]. split; [reflexivity|].
  split; vm_compute; reflexivity.
Qed.

(** [TestRequestBuilder_BuildWithContext] *)
Example test_BuildWithContext :
  exists q,
    BuildWithContext (WithValue Background "key" "value")
                     (New example_url_Parse "http://localhost")
    = Returned (Some (rebound q), None)
    /\ Context_Value (ctx q) "key" = Some "value".
Proof. eexists. split; reflexivity. Qed.

(** ** The sticky error *)

(** C1.  The claim fails on [Method] and [Body], which lack the guard
    their siblings have.  After [Json] has latched the error of an
    unserialisable value, [Method("POST")] still rewrites the method of
    the pending request from [GET] to [POST], and [Body] still replaces
    its body; on the builder [New] makes of a rejected URL, which holds no
    request, both panic.  The error slot itself is kept. *)
Theorem Method_and_Body_ignore_the_sticky_error :
  exists (e : error) (r1 r2 r3 : RequestBuilder),
    Json example_Value example_json_Marshal go_chan
         (New example_url_Parse "http://localhost") = Returned r1
    /\ r1 = mkRequestBuilder 0 (Some e) (Some localhost) None
    /\ Method "POST" r1 = Returned r2
    /\ r2 = mkRequestBuilder 0 (Some e) (Some (set_Method "POST" localhost)) None
    /\ Request_Method localhost = "GET"
    /\ Request_Method (set_Method "POST" localhost) = "POST"
    /\ Body (io_NopCloser (strings_Reader "Body test!")) r1 = Returned r3
    /\ req r3 = Some (set_body (Some (io_NopCloser (strings_Reader "Body test!"))) localhost)
    /\ body localhost = None
    /\ err (New example_url_Parse ":") = Some (url_parse_error ":")
    /\ Method "POST" (New example_url_Parse ":") = Panicked nil_pointer_dereference
    /\ Body http_NoBody (New example_url_Parse ":") = Panicked nil_pointer_dereference.
Proof.
  exists (errorString "json: unsupported type: chan int").
  do 3 eexists. repeat split; reflexivity.
Qed.

(** ** Bodies *)


(** ** JSON *)

Lemma Json_spec_witness :
  (forall e : error, example_json_Marshal (go_bool true) = failed e ->
     Json example_Value example_json_Marshal (go_bool true)
          (New example_url_Parse "http://localhost")
     = Returned (mkRequestBuilder 0 (Some e) (Some localhost) None))
  /\ (forall data : list byte, example_json_Marshal (go_bool true) = ok data ->
        exists q' : Request,
          Json example_Value example_json_Marshal (go_bool true)
               (New example_url_Parse "http://localhost")
          = Returned (mkRequestBuilder 0 None (Some q') None)
          /\ Header_Get "Content-Type" (header q') = "application/json"
          /\ header q' = <["Content-Type" := ["application/json"]]> (header localhost)
          /\ body q' = Some (io_NopCloser (bytes_Buffer data))
          /\ set_body (body localhost) (set_header (header localhost) q') = localhost).
Proof.
  exact (Json_spec example_Value example_json_Marshal (go_bool true)
           (New example_url_Parse "http://localhost") localhost eq_refl eq_refl).
Defined.

(** [TestRequestBuilder_Json], with a value of the stand-in, and the
    failing case. *)
Example test_Json :
  Json example_Value example_json_Marshal (go_bool true)
       (New example_url_Parse "http://localhost")
  = Returned (mkRequestBuilder 0 None
      (Some (set_body (Some (io_NopCloser (bytes_Buffer (list_byte_of_string "true"))))
               (set_header {["Content-Type" := ["application/json"]]} localhost))) None)
  /\ Json example_Value example_json_Marshal go_chan
          (New example_url_Parse "http://localhost")
     = Returned (mkRequestBuilder 0 (Some (errorString "json: unsupported type: chan int"))
                                  (Some localhost) None).
Proof. split; vm_compute; reflexivity. Qed.

(** ** Finalisation and construction *)

Lemma New_rejected_url_witness :
  err (New example_url_Parse ":") = Some (url_parse_error ":")
  /\ req (New example_url_Parse ":") = None
  /\ Err (New example_url_Parse ":") = Some (url_parse_error ":")
  /\ Build (New example_url_Parse ":")
     = Returned (None, Some (url_parse_error ":"))
  /\ (forall c : Context,
        BuildWithContext c (New example_url_Parse ":")
        = Returned (None, Some (url_parse_error ":")))
  /\ (forall w : nat,
        Do nat live_Client_Do (client_at 0) (New example_url_Parse ":") w
        = Returned (mkDone nat None (Some (url_parse_error ":")) w [])).
Proof.
  exact (New_rejected_url example_url_Parse nat live_Client_Do (client_at 0) ":"
           (url_parse_error ":") eq_refl).
Defined.

(** ** Query strings *)

Lemma Query_appends_witness :
  exists q' : Request,
    Query example_range {["key" := "value"]} (New example_url_Parse "http://localhost")
    = Returned (set_req (Some q') (New example_url_Parse "http://localhost"))
    /\ RawQuery (url q') = "key=value".
Proof.
  exact (proj1 (Query_appends example_range example_range_perm
                  (New example_url_Parse "http://localhost") localhost eq_refl eq_refl)
               eq_refl).
Defined.

Lemma Query_concatenates_without_separator_witness :
  Query example_range {["k" := "v"]}
        (mkRequestBuilder 0 None (Some (set_RawQuery "a=b" localhost)) None)
  = Returned (mkRequestBuilder 0 None (Some (set_RawQuery "a=bk=v" localhost)) None).
Proof.
  exact (proj1 (Query_concatenates_without_separator example_range example_range_perm
                  (mkRequestBuilder 0 None (Some (set_RawQuery "a=b" localhost)) None)
                  (set_RawQuery "a=b" localhost) "k" "v" eq_refl eq_refl)).
Defined.

(** Two [AddQuery] calls on a fresh builder. *)
Example test_AddQuery_twice :
  (r <- AddQuery example_range "k1" "v1" (New example_url_Parse "http://localhost") ;;;
   AddQuery example_range "k2" "v2" r)
  = Returned (mkRequestBuilder 0 None (Some (set_RawQuery "k1=v1k2=v2" localhost)) None).
Proof. vm_compute. reflexivity. Qed.

(** ** Multipart forms *)

Lemma MultipartForm_failure_is_atomic_witness :
  MultipartForm example_range example_Writer example_NewWriter example_WriteField
    example_CreateFormFile example_part_Write example_FormDataContentType
    example_Close ew_buffer example_form drafted
  = Returned (mkRequestBuilder 0
      (Some (errorString "open /tmp/multipart-1: no such file or directory"))
      (req drafted) None).
Proof.
  eapply (proj1 (proj2 (MultipartForm_failure_is_atomic example_range example_Writer
            example_NewWriter example_WriteField example_CreateFormFile
            example_part_Write example_FormDataContentType example_Close ew_buffer
            example_form drafted
            (errorString "open /tmp/multipart-1: no such file or directory") eq_refl)));
    vm_compute; reflexivity.
Defined.

(** [TestRequestBuilder_MultipartForm]: one field, no file. *)
Example test_MultipartForm :
  exists r q b,
    MultipartForm example_range example_Writer example_NewWriter example_WriteField
      example_CreateFormFile example_part_Write example_FormDataContentType
      example_Close ew_buffer (mkForm (Some {["key" := ["value"]]}) None)
      (New example_url_Parse "http://localhost") = Returned r
    /\ Build r = Returned (Some (pending q), None)
    /\ Header_Get "Content-Type" (header q)
       = "multipart/form-data; boundary=0123456789abcdef"
    /\ body q = Some (io_NopCloser (bytes_Buffer b))
    /\ string_of_list_byte b
       = "--0123456789abcdef" ++ crlf
         ++ "Content-Disposition: form-data; name=" ++ dquote ++ "key" ++ dquote ++ crlf
         ++ crlf ++ "value"
         ++ crlf ++ "--0123456789abcdef--" ++ crlf
         ++ crlf ++ "--0123456789abcdef--" ++ crlf.
Proof.
  do 3 eexists. split; [vm_compute; reflexivity|]. split; [reflexivity|].
  split; [vm_compute; reflexivity|]. split; [reflexivity|]. vm_compute. reflexivity.
Qed.

(** ** Retries *)

(** C3.  The claim fails for a retry count with the top bit set, which is
    negative as an [int].  [Retry(1 << 63)] on the builder [New] makes of
    [http://localhost] and then [Do]: against a transport that answers
    every call, [Do] makes no call and returns no response; against a
    transport that refuses every call, it returns no error.  The same
    holds of the largest [uint].  With [Retry(1)] the answer of the first
    call is returned after one call. *)
Theorem Do_after_Retry_of_2_63_makes_no_attempt :
  (0 <=? 2 ^ 63) = true
  /\ (2 ^ 63 <? 2 ^ uint_bits) = true
  /\ live_Client_Do (client_at 0) localhost 0%nat
     = (ok (mkResponse 200 "Hello, test!"), 1%nat)
  /\ (r <- Retry (2 ^ 63) (New example_url_Parse "http://localhost") ;;;
      Do nat live_Client_Do (client_at 0) r 0%nat)
     = Returned (mkDone nat None None 0%nat [])
  /\ (r <- Retry (2 ^ 63) (New example_url_Parse "http://localhost") ;;;
      Do nat dead_Client_Do (client_at 0) r 0%nat)
     = Returned (mkDone nat None None 0%nat [])
  /\ (r <- Retry (2 ^ 64 - 1) (New example_url_Parse "http://localhost") ;;;
      Do nat dead_Client_Do (client_at 0) r 0%nat)
     = Returned (mkDone nat None None 0%nat [])
  /\ (r <- Retry 1 (New example_url_Parse "http://localhost") ;;;
      Do nat live_Client_Do (client_at 0) r 0%nat)
     = Returned (mkDone nat (Some (mkResponse 200 "Hello, test!")) None 1%nat
                        [ok (mkResponse 200 "Hello, test!")]).
Proof. repeat split; vm_compute; reflexivity. Qed.

Lemma Do_after_Retry_witness :
  (r1 <- Retry 3 (New example_url_Parse "http://localhost") ;;;
   Do nat flaky_Client_Do (client_at 0) r1 0%nat)
  = Returned (mkDone nat (Some (mkResponse 200 "Hello, test!")) None 3%nat
      [failed (errorString "connection refused");
       failed (errorString "connection refused");
       ok (mkResponse 200 "Hello, test!")]).
Proof.
  destruct (Do_after_Retry nat flaky_Client_Do (client_at 0) 3
              (New example_url_Parse "http://localhost") localhost 0%nat
              eq_refl eq_refl
              (conj (proj1 (Z.leb_le 0 3) eq_refl)
                    (proj1 (Z.ltb_lt 3 (2 ^ (uint_bits - 1))) eq_refl)))
    as (d & HDo & _ & _ & _ & _ & _ & _ & H3 & _).
  rewrite HDo. f_equal.
  exact (H3 eq_refl (errorString "connection refused") (errorString "connection refused")
            (mkResponse 200 "Hello, test!") 1%nat 2%nat 3%nat eq_refl eq_refl eq_refl).
Defined.

(** [Retry(3)] against a transport that always fails: the third error,
    after three calls.  [Retry(0)] and [Retry(1)]: one call. *)
Example test_Retry :
  (r <- Retry 3 (New example_url_Parse "http://localhost") ;;;
   Do nat dead_Client_Do (client_at 0) r 0%nat)
  = Returned (mkDone nat None (Some (errorString "2")) 3%nat
      [failed (errorString "0"); failed (errorString "1"); failed (errorString "2")])
  /\ (r <- Retry 0 (New example_url_Parse "http://localhost") ;;;
      Do nat dead_Client_Do (client_at 0) r 0%nat)
     = Returned (mkDone nat None (Some (errorString "0")) 1%nat [failed (errorString "0")])
  /\ (r <- Retry 1 (New example_url_Parse "http://localhost") ;;;
      Do nat dead_Client_Do (client_at 0) r 0%nat)
     = Returned (mkDone nat None (Some (errorString "0")) 1%nat [failed (errorString "0")]).
Proof. repeat split; vm_compute; reflexivity. Qed.

(** [Retry(1 << 63)]: no call, no response, no error. *)
Example test_Retry_overflow :
  (r <- Retry (2 ^ 63) (New example_url_Parse "http://localhost") ;;;
   Do nat live_Client_Do (client_at 0) r 0%nat)
  = Returned (mkDone nat None None 0%nat []).
Proof. vm_compute. reflexivity. Qed.

(** * Further properties on concrete inputs *)

(** X16.  The text a [Query] call appends does not depend on the order in
    which [range] visits the map: the values collected are the map itself
    with each value in a list of its own, which [Encode] then sorts by
    key; so two iteration orders give the same builder. *)
Theorem Query_independent_of_iteration_order
  (range1 range2 : forall A : Type, gmap string A -> list (string * A))
  (queries : gmap string string) (r : RequestBuilder) :
  (forall (A : Type) (m : gmap string A), range1 A m ≡ₚ map_to_list m) ->
  (forall (A : Type) (m : gmap string A), range2 A m ≡ₚ map_to_list m) ->
  collect_queries range1 queries = (fun v => [v]) <$> queries
  /\ Query range1 queries r = Query range2 queries r
  /\ AddQuery range1 "k" "v" r = AddQuery range2 "k" "v" r.
Proof.
  intros H1 H2.
  assert (Hq : forall m, Query range1 m r = Query range2 m r).
  { intros m. unfold Query.
    now rewrite (collect_queries_fmap range1 H1), (collect_queries_fmap range2 H2). }
  split; [apply (collect_queries_fmap range1 H1)|]. split; [apply Hq|].
  unfold AddQuery. destruct (err r); [reflexivity|apply Hq].
Qed.

Lemma example_range_reversed_perm (A : Type) (m : gmap string A) :
  example_range_reversed A m ≡ₚ map_to_list m.
Proof. unfold example_range_reversed. apply reverse_Permutation. Defined.

Lemma Query_independent_of_iteration_order_witness :
  Query example_range {["b" := "2"; "a" := "1"]} (New example_url_Parse "http://localhost")
  = Query example_range_reversed {["b" := "2"; "a" := "1"]}
          (New example_url_Parse "http://localhost").
Proof.
  exact (proj1 (proj2 (Query_independent_of_iteration_order
           example_range example_range_reversed {["b" := "2"; "a" := "1"]}
           (New example_url_Parse "http://localhost")
           example_range_perm example_range_reversed_perm))).
Defined.

(** The operations at the stand-ins of the library. *)
Local Abbreviation at_examples f :=
  (f example_range example_Value example_json_Marshal example_Writer example_NewWriter
     example_WriteField example_CreateFormFile example_part_Write
     example_FormDataContentType example_Close ew_buffer) (only parsing).
Local Abbreviation at_example_writer f :=
  (f example_Writer example_NewWriter
     example_WriteField example_CreateFormFile example_part_Write
     example_FormDataContentType example_Close ew_buffer) (only parsing).

Lemma first_error_is_latched_witness :
  Build (mkRequestBuilder 0 (err json_rejected) (Some (set_Method "POST" localhost)) None)
  = Returned (None, Some (errorString "json: unsupported type: chan int")).
Proof.
  exact (proj1 (proj2 (at_examples first_error_is_latched nat live_Client_Do (client_at 0)
    json_rejected
    (mkRequestBuilder 0 (err json_rejected) (Some (set_Method "POST" localhost)) None)
    (errorString "json: unsupported type: chan int")
    (at_examples configured_step json_rejected json_rejected
       (mkRequestBuilder 0 (err json_rejected) (Some (set_Method "POST" localhost)) None)
       (at_examples configured_refl json_rejected)
       (at_examples by_Method "POST" json_rejected
          (mkRequestBuilder 0 (err json_rejected) (Some (set_Method "POST" localhost)) None)
          eq_refl))
    eq_refl))).
Defined.

Lemma guarded_calls_are_inert_after_error_witness :
  SetHeader "Accept" "text/plain" json_rejected = Returned json_rejected.
Proof.
  exact (proj1 (proj2 (at_examples guarded_calls_are_inert_after_error json_rejected
    (errorString "json: unsupported type: chan int") eq_refl)) "Accept" "text/plain").
Defined.

Lemma terminal_operations_on_reachable_witness :
  BuildWithContext_nilable None (New example_url_Parse "http://localhost")
  = Panicked nil_context
  /\ BuildWithContext_nilable None (New example_url_Parse ":")
     = Returned (None, Some (url_parse_error ":")).
Proof.
  split.
  - exact (proj1 (proj2 (proj2 (proj2 (proj2
      (at_examples (terminal_operations_on_reachable example_url_Parse)
         nat live_Client_Do (client_at 0) (New example_url_Parse "http://localhost")
         (at_examples (reachable_New example_url_Parse) "http://localhost"))))))
      eq_refl).
  - exact (proj1 (proj2 (proj2 (proj2
      (at_examples (terminal_operations_on_reachable example_url_Parse)
         nat live_Client_Do (client_at 0) (New example_url_Parse ":")
         (at_examples (reachable_New example_url_Parse) ":")))))
      (url_parse_error ":") eq_refl).
Defined.


(** A form whose second file header is [nil], on a fresh builder: the
    first file is written, then the call panics. *)
Example test_MultipartForm_nil_file_header :
  at_example_writer (MultipartForm_nilable example_range)
    (Some (mkNilableForm None (Some {["upload" := [Some small_upload; None]]})))
    (New example_url_Parse "http://localhost")
  = Panicked nil_pointer_dereference
  /\ at_example_writer (MultipartForm_nilable example_range)
       (Some (mkNilableForm None (Some {["upload" := [Some missing_upload; None]]})))
       (New example_url_Parse "http://localhost")
     = Returned (mkRequestBuilder 0
         (Some (errorString "open /tmp/multipart-1: no such file or directory"))
         (Some localhost) None).
Proof. split; vm_compute; reflexivity. Qed.

Lemma SetHeader_overwrites_witness :
  exists q' : Request,
    SetHeader "content-type" "application/json" (New example_url_Parse "http://localhost")
    = Returned (mkRequestBuilder 0 None (Some q') None)
    /\ Header_Get "CONTENT-TYPE" (header q') = "application/json".
Proof.
  destruct (SetHeader_overwrites "content-type" "application/json"
              (New example_url_Parse "http://localhost") localhost eq_refl eq_refl)
    as (q' & H1 & H2 & _).
  exists q'. split; [exact H1|]. exact (proj1 (H2 "CONTENT-TYPE" eq_refl)).
Defined.

Lemma PostForm_spec_witness :
  exists q' : Request,
    PostForm {["key" := ["value"]]} (New example_url_Parse "http://localhost")
    = Returned (mkRequestBuilder 0 None (Some q') None)
    /\ Header_Get "Content-Type" (header q') = "application/x-www-form-urlencoded".
Proof.
  destruct (PostForm_spec {["key" := ["value"]]}
              (New example_url_Parse "http://localhost") localhost eq_refl eq_refl)
    as (q' & H1 & H2 & _).
  exists q'. split; [exact H1 | exact H2].
Defined.

Lemma body_conveniences_replace_each_other_witness :
  (r1 <- PostForm {["key" := ["value"]]} (New example_url_Parse "http://localhost") ;;;
   Json example_Value example_json_Marshal (go_bool true) r1)
  = Json example_Value example_json_Marshal (go_bool true)
         (New example_url_Parse "http://localhost").
Proof.
  exact (proj1 (body_conveniences_replace_each_other example_Value example_json_Marshal
    {["key" := ["value"]]} (go_bool true) (list_byte_of_string "true")
    (New example_url_Parse "http://localhost") localhost eq_refl eq_refl eq_refl)).
Defined.

Lemma last_call_wins_witness :
  (r1 <- Method "POST" (New example_url_Parse "http://localhost") ;;; Method "GET" r1)
  = Method "GET" (New example_url_Parse "http://localhost").
Proof.
  exact (proj1 (last_call_wins (New example_url_Parse "http://localhost") localhost eq_refl)
               "POST" "GET").
Defined.

Lemma MultipartForm_finishes_witness :
  exists q' : Request,
    at_example_writer (MultipartForm example_range)
      (mkForm (Some {["key" := ["value"]]}) None)
      (New example_url_Parse "http://localhost")
    = Returned (mkRequestBuilder 0 None (Some q') None)
    /\ Header_Get "Content-Type" (header q')
       = "multipart/form-data; boundary=0123456789abcdef".
Proof.
  edestruct (at_example_writer (MultipartForm_finishes example_range)
               (mkForm (Some {["key" := ["value"]]}) None)
               (New example_url_Parse "http://localhost") localhost)
    as [_ H]; [reflexivity | reflexivity | vm_compute; reflexivity | vm_compute; reflexivity |].
  edestruct H as (q' & H1 & H2 & _); [vm_compute; reflexivity|].
  exists q'. split; [exact H1 | exact H2].
Defined.

Lemma MultipartForm_of_empty_form_witness :
  exists r' : RequestBuilder,
    at_example_writer (MultipartForm example_range) (mkForm None (Some ∅))
      (New example_url_Parse "http://localhost")
    = Returned r'.
Proof.
  eexists.
  eapply (at_example_writer (MultipartForm_of_empty_form example_range example_range_perm)
            (mkForm None (Some ∅)) (New example_url_Parse "http://localhost") localhost);
    [reflexivity | reflexivity | left; reflexivity | right; reflexivity | reflexivity].
Defined.

Lemma Query_of_empty_map_witness :
  Query example_range ∅ (New example_url_Parse "http://localhost")
  = Returned (New example_url_Parse "http://localhost").
Proof.
  exact (proj1 (Query_of_empty_map example_range example_range_perm
                  (New example_url_Parse "http://localhost") localhost eq_refl eq_refl)).
Defined.

Lemma Query_two_keys_witness :
  Query example_range {["a" := "1"; "b" := "2"]} (New example_url_Parse "http://localhost")
  = Returned (mkRequestBuilder 0 None (Some (set_RawQuery "a=1&b=2" localhost)) None).
Proof.
  exact (Query_two_keys example_range example_range_perm "a" "1" "b" "2"
           (New example_url_Parse "http://localhost") localhost eq_refl eq_refl eq_refl
           ltac:(discriminate)).
Defined.

Lemma Do_after_Retry_overflow_witness :
  (r1 <- Retry (2 ^ 63) (New example_url_Parse "http://localhost") ;;;
   Do nat live_Client_Do (client_at 0) r1 0%nat)
  = Returned (mkDone nat None None 0%nat []).
Proof.
  exact (Do_after_Retry_overflow nat live_Client_Do (client_at 0) (2 ^ 63)
           (New example_url_Parse "http://localhost") localhost 0%nat eq_refl eq_refl
           (conj (proj1 (Z.leb_le (2 ^ (uint_bits - 1)) (2 ^ 63)) eq_refl)
                 (proj1 (Z.ltb_lt (2 ^ 63) (2 ^ uint_bits)) eq_refl))).
Defined.

Lemma Do_first_call_witness :
  Do nat live_Client_Do (client_at 0) (mkRequestBuilder 5 None (Some localhost) None) 0%nat
  = Returned (mkDone nat (Some (mkResponse 200 "Hello, test!")) None 1%nat
                     [ok (mkResponse 200 "Hello, test!")]).
Proof.
  exact (proj1 (Do_first_call nat live_Client_Do (client_at 0)
                  (mkRequestBuilder 5 None (Some localhost) None) localhost 0%nat 1%nat
                  eq_refl eq_refl
                  (conj (proj1 (Z.leb_le 0 5) eq_refl)
                        (proj1 (Z.ltb_lt 5 (2 ^ (uint_bits - 1))) eq_refl)))
               (mkResponse 200 "Hello, test!") eq_refl).
Defined.

Lemma reachable_sends_through_default_client_witness :
  client json_rejected = None.
Proof.
  exact (proj1 (at_examples (reachable_sends_through_default_client example_url_Parse)
    nat live_Client_Do (client_at 0) json_rejected
    (at_examples (reachable_step example_url_Parse)
       (New example_url_Parse "http://localhost") json_rejected
       (at_examples (reachable_New example_url_Parse) "http://localhost")
       (at_examples by_Json go_chan (New example_url_Parse "http://localhost")
          json_rejected eq_refl)))).
Defined.
